(** * cfiles commands: rdf, merge and convert, verified against their source

    A shallow embedding of [src/commands/Rdf.cpp], [src/commands/Merge.cpp]
    and of the convert loop found in [src/commands/HBonds.cpp].

    Conventions of the embedding.
    - A C++ [double] is an exact rational, extended with the two infinities
      and NaN ([double] below), so that a division by zero behaves as it does
      in the program.  Rounding and signed zeros are left out.
    - [size_t] counters (atom counts, step numbers, pair counts) are [nat]:
      they count elements of in-memory vectors and cannot wrap.  The one
      [int] of the code, [start] in [Merge::run], is a [Z] with its 32-bit
      wrap-around written out.
    - Exceptions are the [Err] case of [result]; file handles are explicit
      state.
    - chemfiles and docopt are outside the repository: their types are
      modelled by the contract the commands rely on, and the functions whose
      values the commands never inspect ([wrap], [norm], [volume], the
      selection parser, bond guessing) are section variables. *)

From Stdlib Require DecimalString.
From Stdlib Require Import String Ascii Bool Arith ZArith QArith Qminmax Qround Lia Permutation List.
Import ListNotations.

Local Open Scope string_scope.
Local Open Scope Z_scope.
Local Open Scope Q_scope.
Local Open Scope nat_scope.
Local Open Scope list_scope.

(** ** Errors *)

(** [CFilesError] is the only exception type thrown by the commands (the
    documentation calls it a configuration error); [FileError] stands for the
    errors chemfiles raises on a failed read. *)
Inductive error : Type :=
| CFilesError (msg : string)
| FileError (msg : string).

Inductive result (A : Type) : Type :=
| Ok (a : A)
| Err (e : error).
Arguments Ok {A} a.
Arguments Err {A} e.

Definition bind {A B : Type} (r : result A) (k : A -> result B) : result B :=
  match r with
  | Ok a => k a
  | Err e => Err e
  end.

Notation "'do' x <- r ; k" := (bind r (fun x => k))
  (at level 10, x pattern, r at level 100, k at level 200).

Definition is_ok {A : Type} (r : result A) : bool :=
  match r with Ok _ => true | Err _ => false end.

(** ** Floating point values *)

Module Double.

Inductive double : Type :=
| Fin (q : Q)
| PInf
| NInf
| NaN.

Definition Qltb (x y : Q) : bool := negb (Qle_bool y x).

Definition of_nat (n : nat) : double := Fin (inject_Z (Z.of_nat n)).

Definition inf (negative : bool) : double := if negative then NInf else PInf.

(** -1, 0 or 1 *)
Definition sgn (q : Q) : Z := Z.sgn (Qnum q).

Definition mul_inf (negative : bool) (q : Q) : double :=
  match sgn q with
  | Z0 => NaN
  | Zpos _ => inf negative
  | Zneg _ => inf (negb negative)
  end.

Definition mul (x y : double) : double :=
  match x, y with
  | NaN, _ | _, NaN => NaN
  | Fin a, Fin b => Fin (a * b)
  | Fin a, PInf | PInf, Fin a => mul_inf false a
  | Fin a, NInf | NInf, Fin a => mul_inf true a
  | PInf, PInf | NInf, NInf => PInf
  | PInf, NInf | NInf, PInf => NInf
  end.

(** [a / 0] is an infinity of the sign of [a], and [0 / 0] is NaN. *)
Definition div (x y : double) : double :=
  match x, y with
  | NaN, _ | _, NaN => NaN
  | Fin a, Fin b =>
      if Qeq_bool b 0 then
        match sgn a with
        | Z0 => NaN
        | Zpos _ => PInf
        | Zneg _ => NInf
        end
      else Fin (a / b)
  | Fin _, PInf | Fin _, NInf => Fin 0
  | PInf, Fin b => inf (Qltb b 0)
  | NInf, Fin b => inf (negb (Qltb b 0))
  | _, _ => NaN
  end.

Definition add (x y : double) : double :=
  match x, y with
  | NaN, _ | _, NaN => NaN
  | Fin a, Fin b => Fin (a + b)
  | PInf, NInf | NInf, PInf => NaN
  | PInf, _ | _, PInf => PInf
  | NInf, _ | _, NInf => NInf
  end.

(** Equality of values; NaN is not equal to anything, as in the program. *)
Definition eqb (x y : double) : bool :=
  match x, y with
  | Fin a, Fin b => Qeq_bool a b
  | PInf, PInf | NInf, NInf => true
  | _, _ => false
  end.

End Double.
Import Double.

(** ** Vectors, unit cells and frames (chemfiles) *)

Definition Vector3D : Type := (Q * Q * Q)%type.

Definition vzero : Vector3D := (0%Q, 0%Q, 0%Q).

Definition vsub (u v : Vector3D) : Vector3D :=
  let '(ux, uy, uz) := u in
  let '(vx, vy, vz) := v in
  ((ux - vx)%Q, (uy - vy)%Q, (uz - vz)%Q).

Inductive CellShape : Type := ORTHORHOMBIC | TRICLINIC | INFINITE.

Definition shape_eqb (s t : CellShape) : bool :=
  match s, t with
  | ORTHORHOMBIC, ORTHORHOMBIC | TRICLINIC, TRICLINIC | INFINITE, INFINITE => true
  | _, _ => false
  end.

(** [chemfiles::UnitCell]: lengths in angstroms, angles in degrees. *)
Module UnitCell.

Record t : Type := mk {
  shape : CellShape;
  a : Q; b : Q; c : Q;
  alpha : Q; beta : Q; gamma : Q
}.

(** [UnitCell()] *)
Definition default : t := mk INFINITE 0 0 0 90 90 90.

(** [UnitCell(a, b, c)] *)
Definition orthorhombic (la lb lc : Q) : t := mk ORTHORHOMBIC la lb lc 90 90 90.

(** [operator==]: same shape, same lengths and same angles. *)
Definition eqb (x y : t) : bool :=
  shape_eqb (shape x) (shape y)
  && Qeq_bool (a x) (a y) && Qeq_bool (b x) (b y) && Qeq_bool (c x) (c y)
  && Qeq_bool (alpha x) (alpha y) && Qeq_bool (beta x) (beta y)
  && Qeq_bool (gamma x) (gamma y).

End UnitCell.

(** What the commands use of an atom. *)
Record Atom : Type := mkAtom { atom_name : string }.

(** A bond is a pair of atom indexes. *)
Definition Bond : Type := (Z * Z)%type.

(** A frame.  chemfiles keeps the topology and the positions at the same
    length, so an atom is stored with its position: [topology()[i]] and
    [positions()[i]] are the two components of the [i]-th entry. *)
Record Frame : Type := mkFrame {
  atoms : list (Atom * Vector3D);
  velocities : option (list Vector3D);
  bonds : list Bond;
  cell : UnitCell.t
}.

(** [Frame()]: no atom, no velocities, no bond, an infinite cell. *)
Definition Frame_default : Frame :=
  mkFrame [] None [] UnitCell.default.

(** [frame.size()], called [natoms()] by the older interface. *)
Definition size (f : Frame) : nat := List.length (atoms f).

Definition positions (f : Frame) : list Vector3D := map snd (atoms f).

Definition topology (f : Frame) : list Atom := map fst (atoms f).

Definition has_velocities (f : Frame) : bool :=
  match velocities f with Some _ => true | None => false end.

(** [frame.add_velocities()]: zero velocities for the atoms already there;
    nothing when the frame has velocities. *)
Definition add_velocities (f : Frame) : Frame :=
  match velocities f with
  | Some _ => f
  | None => mkFrame (atoms f) (Some (repeat vzero (size f))) (bonds f) (cell f)
  end.

(** [frame.add_atom(atom, position)]: the velocity of the new atom, when the
    frame stores velocities, is zero. *)
Definition add_atom (f : Frame) (at_ : Atom) (p : Vector3D) : Frame :=
  mkFrame (atoms f ++ [(at_, p)])
          (option_map (fun vs => vs ++ [vzero]) (velocities f))
          (bonds f) (cell f).

(** [frame.add_bond(i, j)] *)
Definition add_bond (f : Frame) (i j : Z) : Frame :=
  mkFrame (atoms f) (velocities f) (bonds f ++ [(i, j)]) (cell f).

(** [v[i] = x] on a vector; the program never writes out of range. *)
Fixpoint set_nth {A : Type} (i : nat) (x : A) (l : list A) : list A :=
  match l, i with
  | [], _ => []
  | _ :: t, O => x :: t
  | h :: t, S i' => h :: set_nth i' x t
  end.

(** [v[i]] on the positions of a frame; the indexes come from a selection
    evaluated on the same frame and are in range. *)
Definition at_ (l : list Vector3D) (i : nat) : Vector3D := nth i l vzero.

(** ** Histogram *)

Module Histogram.

(** Modelled from the spec: [Histogram.hpp] is not part of the sources at
    hand.  A histogram has a fixed, positive number of bins of equal width
    over [lower_bound, upper_bound); the bins of a [Histogram<double>] hold
    doubles. *)
Record t : Type := mk {
  bin_count : nat;
  lower_bound : Q;
  upper_bound : Q;
  bins : list double
}.

(** Modelled from the spec: [Histogram(bin_count, lower_bound, upper_bound)]
    constructs zeroed bins. *)
Definition make (n : nat) (lo hi : Q) : t := mk n lo hi (repeat (Fin 0) n).

(** Modelled from the spec: [bin_size = (upper_bound - lower_bound) /
    bin_count]. *)
Definition bin_size (h : t) : Q :=
  ((upper_bound h - lower_bound h) / inject_Z (Z.of_nat (bin_count h)))%Q.

(** Modelled from the spec: the bin index for [x] is
    [floor((x - lower_bound) / bin_size)]. *)
Definition bin_index (h : t) (x : Q) : nat :=
  Z.to_nat (Qfloor ((x - lower_bound h) / bin_size h)%Q).

Fixpoint incr (i : nat) (l : list double) : list double :=
  match l, i with
  | [], _ => []
  | v :: t, O => Double.add v (Fin 1) :: t
  | v :: t, S i' => v :: incr i' t
  end.

(** Modelled from the spec: [insert_at(x)] increments the count of the bin
    containing [x], and is a no-op if [x] falls outside
    [lower_bound, upper_bound). *)
Definition insert_at (h : t) (x : Q) : t :=
  if Qle_bool (lower_bound h) x && Qltb x (upper_bound h)
  then mk (bin_count h) (lower_bound h) (upper_bound h)
          (incr (bin_index h x) (bins h))
  else h.

Fixpoint mapi_from {A B : Type} (i : nat) (f : nat -> A -> B) (l : list A) : list B :=
  match l with
  | [] => []
  | x :: t => f i x :: mapi_from (S i) f t
  end.

(** Modelled from the spec: [normalize(f)] replaces every bin's value with
    [f(index, current_value)]. *)
Definition normalize (f : nat -> double -> double) (h : t) : t :=
  mk (bin_count h) (lower_bound h) (upper_bound h) (mapi_from 0 f (bins h)).

(** [histogram[i]] *)
Definition get (h : t) (i : nat) : double := nth i (bins h) (Fin 0).

Definition size (h : t) : nat := List.length (bins h).

End Histogram.

(** ** Selections (chemfiles) *)

(** [chemfiles::Selection]: the number of atoms it matches together
    ([size()]), the matched atoms of a selection of size 1 ([list(frame)])
    and the matches of a selection of several atoms ([evaluate(frame)]); a
    match of a selection of size 2 is the pair [(match[0], match[1])]. *)
Record Selection : Type := mkSelection {
  sel_size : nat;
  sel_list : Frame -> list nat;
  sel_evaluate : Frame -> list (nat * nat)
}.

(** ** The rdf command, [Rdf.cpp] *)

Module Rdf.

(** [static const double pi] *)
Definition pi : Q := 3141592653589793238463 # 1000000000000000000000.

(** [Rdf::Options] *)
Record Options : Type := mkOptions {
  outfile : string;
  selection : string;
  npoints : nat;
  rmax : Q
}.

(** The object: [options_] and [selection_]. *)
Record t : Type := mk {
  options_ : Options;
  selection_ : Selection
}.

(** The command line after docopt: [--output] is optional, [--max],
    [--points] and [--selection] have defaults; [--max] and [--points] are
    given by their values after [stod] and [stol]. *)
Record Args : Type := mkArgs {
  arg_output : option string;
  arg_max : Q;
  arg_points : nat;
  arg_selection : string
}.

(** What [setup] reads of [AverageCommand::options()], as filled by
    [AverageCommand::parse_options]. *)
Record AverageOptions : Type := mkAverageOptions {
  trajectory : string;
  custom_cell : bool;
  avg_cell : UnitCell.t
}.

(** Operations on files, in the order they happen.  The trajectory is opened
    and read by the caller of [setup] and [accumulate]; the output is written
    by [finish]. *)
Inductive io_event : Type :=
| OpenRead (path : string)
| OpenWrite (path : string)
| ReadFrame (path : string)
| WriteText (path : string) (text : string)
| WriteData (path : string) (x : Q) (y : double).

(** The state [setup], [accumulate] and [finish] act on: the object, the
    histogram passed by reference, and the file operations done so far. *)
Record State : Type := mkState {
  self : t;
  histogram : Histogram.t;
  io : list io_event
}.

Section Commands.

(** [cell.wrap(v)], [norm(v)] and [cell.volume()] of chemfiles, and the
    constructor [Selection(string)], which parses the selection. *)
Variable wrap : UnitCell.t -> Vector3D -> Vector3D.
Variable norm : Vector3D -> Q.
Variable volume : UnitCell.t -> Q.
Variable parse_selection : string -> Selection.

(** [Rdf::setup], after the two parsing calls ([docopt] and
    [AverageCommand::parse_options], whose results are [args] and [avg]) and
    for a selection string that chemfiles accepts.  An exception leaves the
    assignments done before it in place. *)
Definition setup (args : Args) (avg : AverageOptions) (st : State)
  : result unit * State :=
  let outfile :=
    match arg_output args with
    | Some o => o
    | None => (trajectory avg ++ ".rdf")%string
    end in
  let rmax := arg_max args in
  let npoints := arg_points args in
  let selection := arg_selection args in
  let rmax :=
    if custom_cell avg then
      let cell := avg_cell avg in
      let L := Qmin (UnitCell.a cell) (Qmin (UnitCell.b cell) (UnitCell.c cell)) in
      (L / 2)%Q
    else rmax in
  let options_ := mkOptions outfile selection npoints rmax in
  let histogram := Histogram.make npoints 0 rmax in
  let selection_ := parse_selection selection in
  let st' := mkState (mk options_ selection_) histogram (io st) in
  if 2 <? sel_size selection_ then
    (Err (CFilesError "Can not use a selection with more than two atoms in RDF."), st')
  else (Ok tt, st').

(** [norm(cell.wrap(positions[j] - positions[i]))] *)
Definition distance (frame : Frame) (i j : nat) : Q :=
  let positions := positions frame in
  let cell := cell frame in
  norm (wrap cell (vsub (at_ positions j) (at_ positions i))).

(** The body shared by the two loops: the test on [rij], the insertion and
    the count. *)
Definition record_pair (rmax : Q) (frame : Frame) (i j : nat)
  (acc : Histogram.t * nat) : Histogram.t * nat :=
  let rij := distance frame i j in
  if Qltb rij rmax then (Histogram.insert_at (fst acc) rij, S (snd acc))
  else acc.

(** The first part of [Rdf::accumulate] (lines 93 to 126): the loops over the
    pairs.  Returns the histogram and [npairs].  The [assert] of the second
    branch holds after a [setup] that did not throw. *)
Definition accumulate_pairs (this : t) (frame : Frame) (histogram : Histogram.t)
  : Histogram.t * nat :=
  let rmax := rmax (options_ this) in
  if sel_size (selection_ this) =? 1 then
    let matched := sel_list (selection_ this) frame in
    fold_left (fun acc i =>
      fold_left (fun acc j =>
        if i =? j then acc
        else record_pair rmax frame i j acc) matched acc) matched (histogram, 0)
  else
    let matched := sel_evaluate (selection_ this) frame in
    fold_left (fun acc match_ =>
      let i := fst match_ in
      let j := snd match_ in
      record_pair rmax frame i j acc) matched (histogram, 0).

(** [rho] of [Rdf::accumulate] (lines 129 to 133). *)
Definition density (frame : Frame) : double :=
  let cell := cell frame in
  let V := volume cell in
  let V := if Qltb 0 V then 1%Q else V in
  Double.div (Double.of_nat (size frame)) (Fin V).

(** Lines 132 to 139 of [Rdf::accumulate], for a density [rho]. *)
Definition normalize_with (rho : double) (npairs : nat) (histogram : Histogram.t)
  : Histogram.t :=
  let dr := Histogram.bin_size histogram in
  let norm :=
    Double.mul (Double.mul (Double.mul (Double.mul (Double.mul (Double.mul
      (Fin (1 # 1000000)) (Fin 2)) (Fin 4)) (Fin pi)) rho)
      (Double.of_nat npairs)) (Fin dr) in
  Histogram.normalize (fun i val =>
    let r := ((inject_Z (Z.of_nat i) + (1 # 2)) * dr)%Q in
    Double.div val (Double.mul (Double.mul norm (Fin r)) (Fin r))) histogram.

(** The second part of [Rdf::accumulate] (lines 128 to 139). *)
Definition normalize_frame (frame : Frame) (npairs : nat) (histogram : Histogram.t)
  : Histogram.t :=
  normalize_with (density frame) npairs histogram.

(** [Rdf::accumulate] *)
Definition accumulate (this : t) (frame : Frame) (histogram : Histogram.t)
  : Histogram.t :=
  let '(histogram, npairs) := accumulate_pairs this frame histogram in
  normalize_frame frame npairs histogram.

(** [Rdf::finish]: the only file the command opens itself.  [can_open] says
    whether the output file could be opened. *)
Definition finish (can_open : bool) (avg : AverageOptions) (st : State)
  : result unit * State :=
  let out := outfile (options_ (self st)) in
  let h := histogram st in
  if can_open then
    let dr := Histogram.bin_size h in
    let header :=
      [ OpenWrite out;
        WriteText out ("# Radial distribution function in trajectory " ++ trajectory avg)%string;
        WriteText out ("# Selection: " ++ selection (options_ (self st)))%string ] in
    let lines :=
      map (fun i => WriteData out (inject_Z (Z.of_nat i) * dr)%Q (Histogram.get h i))
          (seq 0 (Histogram.size h)) in
    (Ok tt, mkState (self st) h (io st ++ header ++ lines))
  else
    (Err (CFilesError ("Could not open the '" ++ out ++ "' file.")%string),
     mkState (self st) h (io st ++ [OpenWrite out])).

(** The pairs as the documentation describes them: every matched atom with
    every other matched atom for a selection of size 1, the matches
    themselves otherwise. *)
Definition distinct_pairs (matched : list nat) : list (nat * nat) :=
  filter (fun p => negb (fst p =? snd p)) (list_prod matched matched).

Definition considered_pairs (this : t) (frame : Frame) : list (nat * nat) :=
  if sel_size (selection_ this) =? 1
  then distinct_pairs (sel_list (selection_ this) frame)
  else sel_evaluate (selection_ this) frame.

(** [rij < rmax] for the pair [p]. *)
Definition below (rmax : Q) (frame : Frame) (p : nat * nat) : bool :=
  Qltb (distance frame (fst p) (snd p)) rmax.

(** The density as the documentation describes it: the number of atoms over
    the volume of the cell, and the number of atoms when the volume is not
    positive. *)
Definition documented_density (frame : Frame) : double :=
  let V := volume (cell frame) in
  if Qltb 0 V then Double.div (Double.of_nat (size frame)) (Fin V)
  else Double.of_nat (size frame).

(** [K] of the documented formula
    [count[i] / (K * rho * n_pairs * dr * r_i^2)]. *)
Definition K : Q := ((1 # 1000000) * 2 * 4 * pi)%Q.

Definition documented_bin (rho : Q) (npairs : nat) (dr : Q) (i : nat) (count : Q) : Q :=
  let r := ((inject_Z (Z.of_nat i) + (1 # 2)) * dr)%Q in
  (count / (K * rho * inject_Z (Z.of_nat npairs) * dr * (r * r)))%Q.

End Commands.

End Rdf.

(** ** Trajectories (chemfiles) *)

(** A trajectory opened for reading: its steps and the number of steps
    already read. *)
Record Trajectory : Type := mkTrajectory {
  steps : list Frame;
  cursor : nat
}.

(** [Trajectory(path, 'r', format)] on a file holding [fs]. *)
Definition open (fs : list Frame) : Trajectory := mkTrajectory fs 0.

Definition nsteps (t : Trajectory) : nat := List.length (steps t).

(** [trajectory.read()]: the next step; an error past the last one. *)
Definition read (t : Trajectory) : result (Frame * Trajectory) :=
  match nth_error (steps t) (cursor t) with
  | Some f => Ok (f, mkTrajectory (steps t) (S (cursor t)))
  | None => Err (FileError "can not read past the end of the trajectory")
  end.

(** A trajectory opened for writing: the cell set on the handle, if any, and
    the frames handed to [write], oldest first. *)
Record OutTrajectory : Type := mkOutTrajectory {
  handle_cell : option UnitCell.t;
  written : list Frame
}.

Definition set_cell (o : OutTrajectory) (c : UnitCell.t) : OutTrajectory :=
  mkOutTrajectory (Some c) (written o).

Definition write (o : OutTrajectory) (f : Frame) : OutTrajectory :=
  mkOutTrajectory (handle_cell o) (written o ++ [f]).

(** ** The merge command, [Merge.cpp] *)

Module Merge.

(** What [Merge::run] reads of [Merge::Options] once the files are open. *)
Module Options.
Record t : Type := mk {
  custom_cell : bool;
  cell : UnitCell.t
}.
End Options.

(** Conversion of an integer to [int] and to [size_t]. *)
Definition to_int (z : Z) : Z := ((z + 2 ^ 31) mod 2 ^ 32 - 2 ^ 31)%Z.
Definition to_size_t (z : Z) : Z := (z mod 2 ^ 64)%Z.

(** [start + x] for [int start] and [size_t x]: the sum is a [size_t]. *)
Definition offset (start x : Z) : Z := to_size_t (to_size_t start + x).

(** Lines 100 to 106: the reads of one step.  [inputs] and [frames] have the
    same length.  Returns the inputs, the frames and
    [did_read_one_frame]. *)
Fixpoint read_frames (step : nat) (inputs : list Trajectory) (frames : list Frame)
  : result (list Trajectory * list Frame * bool) :=
  match inputs, frames with
  | input :: inputs', frame :: frames' =>
      do (input, frame, did) <-
        (if step <? nsteps input
         then do (f, t) <- read input; Ok (t, f, true)
         else Ok (input, frame, false));
      do (inputs', frames', did') <- read_frames step inputs' frames';
      Ok (input :: inputs', frame :: frames', did || did')
  | _, _ => Ok ([], [], false)
  end.

Definition is_infinite (frame : Frame) : bool :=
  shape_eqb (UnitCell.shape (cell frame)) INFINITE.

(** Lines 115 to 121: the first cell that is not infinite. *)
Fixpoint reference_cell (frames : list Frame) : UnitCell.t :=
  match frames with
  | [] => UnitCell.default
  | frame :: rest =>
      if negb (is_infinite frame) then cell frame
      else reference_cell rest
  end.

Definition mismatch : error :=
  CFilesError
    "Mismatch in unit cells. Please specify which one you want using the --cell argument.".

(** Lines 125 to 134 *)
Fixpoint compare_cells (reference : UnitCell.t) (frames : list Frame) : result unit :=
  match frames with
  | [] => Ok tt
  | frame :: rest =>
      if negb (is_infinite frame) && negb (UnitCell.eqb (cell frame) reference)
      then Err mismatch
      else compare_cells reference rest
  end.

(** Lines 112 to 135 *)
Definition check_cells (options : Options.t) (frames : list Frame) : result unit :=
  if negb (Options.custom_cell options) then
    let reference := reference_cell frames in
    compare_cells reference frames
  else Ok tt.

(** Lines 137 to 142: [one_frame_has_velocity] and [natoms]. *)
Definition count (frames : list Frame) : bool * nat :=
  fold_left (fun acc frame =>
    (fst acc || has_velocities frame, snd acc + size frame)) frames (false, 0).

(** [output_velocities[k] = v] *)
Definition set_velocity (f : Frame) (k : Z) (v : Vector3D) : Frame :=
  mkFrame (atoms f)
          (option_map (set_nth (Z.to_nat k) v) (velocities f))
          (bonds f) (cell f).

(** Lines 152 to 171: one input frame is added to the output frame. *)
Definition append_frame (acc : Frame * Z) (frame : Frame) : Frame * Z :=
  let '(output_frame, start) := acc in
  let output_frame :=
    fold_left (fun out atom => add_atom out (fst atom) (snd atom))
              (atoms frame) output_frame in
  let output_frame :=
    match velocities frame with
    | Some velocities =>
        fold_left (fun out i =>
          set_velocity out (offset start (Z.of_nat i)) (nth i velocities vzero))
          (seq 0 (size frame)) output_frame
    | None => output_frame
    end in
  let output_frame :=
    fold_left (fun out bond =>
      add_bond out (offset start (fst bond)) (offset start (snd bond)))
      (bonds frame) output_frame in
  (output_frame, to_int (offset start (Z.of_nat (size frame)))).

(** Lines 137 to 172: the output frame of one step. *)
Definition build_output (frames : list Frame) : Frame :=
  let '(one_frame_has_velocity, natoms) := count frames in
  let output_frame := Frame_default in
  let output_frame :=
    if one_frame_has_velocity then add_velocities output_frame
    else output_frame in
  fst (fold_left append_frame frames (output_frame, 0%Z)).

(** Lines 98 to 176: the loop.  [None] when the fuel runs out. *)
Fixpoint loop (fuel : nat) (options : Options.t) (inputs : list Trajectory)
  (frames : list Frame) (outfile : OutTrajectory) (step : nat)
  : option (result Z * OutTrajectory) :=
  match fuel with
  | O => None
  | S fuel' =>
      match read_frames step inputs frames with
      | Err e => Some (Err e, outfile)
      | Ok (inputs, frames, did_read_one_frame) =>
          if negb did_read_one_frame then Some (Ok 0%Z, outfile)
          else
            match check_cells options frames with
            | Err e => Some (Err e, outfile)
            | Ok _ =>
                let output_frame := build_output frames in
                loop fuel' options inputs frames (write outfile output_frame) (S step)
            end
      end
  end.

(** [Merge::run] from line 90 on, the input files being open. *)
Definition run (fuel : nat) (options : Options.t) (inputs : list Trajectory)
  : option (result Z * OutTrajectory) :=
  let outfile := mkOutTrajectory None [] in
  let outfile :=
    if Options.custom_cell options then set_cell outfile (Options.cell options) else outfile in
  let frames := repeat Frame_default (List.length inputs) in
  loop fuel options inputs frames outfile 0.

(** The output file when the loop is entered (lines 90 to 94). *)
Definition initial_outfile (options : Options.t) : OutTrajectory :=
  if Options.custom_cell options
  then mkOutTrajectory (Some (Options.cell options)) []
  else mkOutTrajectory None [].

(** The frame held by the slot of an input with steps [fs] once [k]
    iterations of the loop are done. *)
Fixpoint held (fs : list Frame) (k : nat) : Frame :=
  match k with
  | O => Frame_default
  | S k' => if k' <? List.length fs then nth k' fs Frame_default else held fs k'
  end.

(** The current frames of output step [k]. *)
Definition slots (inputs : list (list Frame)) (k : nat) : list Frame :=
  map (fun fs => held fs (S k)) inputs.

(** An input after [k] iterations. *)
Definition at_step (k : nat) (fs : list Frame) : Trajectory :=
  mkTrajectory fs (Nat.min k (List.length fs)).

Definition max_nsteps (inputs : list (list Frame)) : nat :=
  fold_right Nat.max 0 (map (@List.length Frame) inputs).

(** What the run amounts to from step [k] on, [n] steps being left: the
    output frames of the steps up to the first mismatch of cells. *)
Fixpoint outcome (options : Options.t) (inputs : list (list Frame))
  (outfile : OutTrajectory) (k n : nat) : result Z * OutTrajectory :=
  match n with
  | O => (Ok 0%Z, outfile)
  | S n' =>
      match check_cells options (slots inputs k) with
      | Err e => (Err e, outfile)
      | Ok _ =>
          outcome options inputs (write outfile (build_output (slots inputs k)))
                  (S k) n'
      end
  end.

(** No step of the run fails the comparison of the cells. *)
Definition cells_agree (options : Options.t) (inputs : list (list Frame)) : bool :=
  forallb (fun k => is_ok (check_cells options (slots inputs k)))
          (seq 0 (max_nsteps inputs)).

(** The offsets of the frames in the output: the sizes of the frames
    before. *)
Fixpoint offsets (start : nat) (frames : list Frame) : list nat :=
  match frames with
  | [] => []
  | frame :: rest => start :: offsets (start + size frame) rest
  end.

Definition translate (start : nat) (bond : Bond) : Bond :=
  ((Z.of_nat start + fst bond)%Z, (Z.of_nat start + snd bond)%Z).

Definition translated_bonds (frames : list Frame) : list Bond :=
  concat (map (fun p => map (translate (fst p)) (bonds (snd p)))
              (combine (offsets 0 frames) frames)).

Definition total_size (frames : list Frame) : nat :=
  list_sum (map size frames).

(** The bonds of a frame join two of its atoms. *)
Definition bonds_in_range (frame : Frame) : Prop :=
  forall bond, In bond (bonds frame) ->
    (0 <= fst bond < Z.of_nat (size frame))%Z /\
    (0 <= snd bond < Z.of_nat (size frame))%Z.

(** The velocities an input frame brings to the output frame: its own, or a
    zero velocity for each of its atoms. *)
Definition velocities_or_zero (frame : Frame) : list Vector3D :=
  match velocities frame with
  | Some vs => vs
  | None => repeat vzero (size frame)
  end.

(** chemfiles keeps one velocity per atom. *)
Definition velocities_sized (frame : Frame) : Prop :=
  forall vs, velocities frame = Some vs -> List.length vs = size frame.

(** A frame as chemfiles keeps it: bonds between its atoms, one velocity for
    each atom. *)
Definition well_formed (frame : Frame) : Prop :=
  bonds_in_range frame /\ velocities_sized frame.

(** At every step of the run the current frames have fewer than [2 ^ 31]
    atoms together. *)
Definition steps_fit (inputs : list (list Frame)) : bool :=
  forallb (fun k => (Z.of_nat (total_size (slots inputs k)) <? 2 ^ 31)%Z)
          (seq 0 (max_nsteps inputs)).

(** A frame without its cell. *)
Definition strip_cell (frame : Frame) : Frame :=
  mkFrame (atoms frame) (velocities frame) (bonds frame) UnitCell.default.

(** Any two frames that have a cell have equal cells. *)
Definition cells_pairwise_equal (frames : list Frame) : Prop :=
  forall f g, In f frames -> In g frames ->
    is_infinite f = false -> is_infinite g = false ->
    UnitCell.eqb (cell f) (cell g) = true.

(** [Merge::Options], as [parse_options] fills it. *)
Module ParsedOptions.
Record t : Type := mk {
  infiles : list string;
  outfile : string;
  input_formats : list string;
  output_format : string;
  custom_cell : bool;
  cell : UnitCell.t
}.
End ParsedOptions.

(** The command line of [cfiles merge] after docopt: [<input>...] and
    [<output>] are required, the three options are optional. *)
Record Args : Type := mkArgs {
  arg_input : list string;
  arg_output : string;
  arg_input_format : option string;
  arg_output_format : option string;
  arg_cell : option string
}.

Definition formats_mismatch : string :=
  "Input formats do not match input files: we have {} file and {} formats.
 Formats must be provided as a comma separated list: --input-format='XYZ,PDB,AmberNetCDF'".

Section ParseOptions.

(** [split(s, ',')] and [parse_cell] of [utils.hpp], [cfiles_error] of
    [Errors.hpp] applied to a message and two numbers, and the value of a
    [Merge::Options] that was just declared. *)
Variable split : string -> list string.
Variable parse_cell : string -> result UnitCell.t.
Variable cfiles_error : string -> nat -> nat -> error.
Variable declared : ParsedOptions.t.

(** [parse_options] of [Merge.cpp] (lines 44 to 74). *)
Definition parse_options (args : Args) : result ParsedOptions.t :=
  let infiles := arg_input args in
  let outfile := arg_output args in
  do input_formats <-
    match arg_input_format args with
    | Some formats =>
        let input_formats := split formats in
        let n_files := List.length infiles in
        let n_formats := List.length input_formats in
        if negb (n_files =? n_formats)
        then Err (cfiles_error formats_mismatch n_files n_formats)
        else Ok input_formats
    | None => Ok (repeat EmptyString (List.length infiles))
    end;
  let output_format :=
    match arg_output_format args with
    | Some format => format
    | None => ParsedOptions.output_format declared
    end in
  match arg_cell args with
  | Some spec =>
      do cell <- parse_cell spec;
      Ok (ParsedOptions.mk infiles outfile input_formats output_format true cell)
  | None =>
      Ok (ParsedOptions.mk infiles outfile input_formats output_format
            (ParsedOptions.custom_cell declared) (ParsedOptions.cell declared))
  end.

End ParseOptions.

(** [n] in decimal. *)
Definition decimal (n : nat) : string :=
  DecimalString.NilZero.string_of_uint (Nat.to_uint n).

(** The message with each [{}] replaced by the next argument. *)
Fixpoint format (message : string) (arguments : list nat) : string :=
  match message with
  | EmptyString => EmptyString
  | String c rest =>
      match rest, arguments with
      | String d rest', n :: arguments' =>
          if (Ascii.eqb c "{" && Ascii.eqb d "}")%bool
          then (decimal n ++ format rest' arguments')%string
          else String c (format rest arguments)
      | _, _ => String c (format rest arguments)
      end
  end.

(** Modelled from the spec: [Errors.hpp] is not part of the sources at hand.
    [cfiles_error(message, arguments...)] is the configuration error of the
    commands, its message being [message] with each [{}] replaced by the next
    argument. *)
Definition cfiles_error (message : string) (n m : nat) : error :=
  CFilesError (format message [n; m]).

End Merge.

(** ** The values of docopt *)

Module Docopt.

(** [docopt::value]: what the parser stores for an option, an argument or a
    command. *)
Inductive kind : Type := KEmpty | KBool | KLong | KString | KStringList.

Inductive value : Type :=
| Empty
| Bool (b : bool)
| Long (n : Z)
| Str (s : string)
| StrList (l : list string).

Definition kind_of (v : value) : kind :=
  match v with
  | Empty => KEmpty
  | Bool _ => KBool
  | Long _ => KLong
  | Str _ => KString
  | StrList _ => KStringList
  end.

(** What a command can throw: the [std::runtime_error] of a [value] asked for
    a kind it does not hold, the [std::out_of_range] of [std::map::at], and
    the errors of cfiles and chemfiles. *)
Inductive exception : Type :=
| IllegalCast (expected actual : kind)
| OutOfRange (key : string)
| Raised (e : error).

Inductive outcome (A : Type) : Type :=
| Done (a : A)
| Thrown (e : exception).
Arguments Done {A} a.
Arguments Thrown {A} e.

Definition and_then {A B : Type} (o : outcome A) (k : A -> outcome B) : outcome B :=
  match o with
  | Done a => k a
  | Thrown e => Thrown e
  end.

(** [std::map<std::string, docopt::value>]: the result of [docopt::docopt],
    one entry for each element of the usage text. *)
Definition args : Type := list (string * value).

Fixpoint lookup (key : string) (m : args) : option value :=
  match m with
  | [] => None
  | (k, v) :: rest => if String.eqb k key then Some v else lookup key rest
  end.

(** [m[key]]: a key that is missing is added with an empty value. *)
Definition index (m : args) (key : string) : value * args :=
  match lookup key m with
  | Some v => (v, m)
  | None => (Empty, m ++ [(key, Empty)])
  end.

(** [m.at(key)] *)
Definition at_ (m : args) (key : string) : outcome value :=
  match lookup key m with
  | Some v => Done v
  | None => Thrown (OutOfRange key)
  end.

(** [explicit operator bool]: the value holds something. *)
Definition holds (v : value) : bool :=
  match v with Empty => false | _ => true end.

(** [asString()] and [asBool()] *)
Definition asString (v : value) : outcome string :=
  match v with
  | Str s => Done s
  | _ => Thrown (IllegalCast KString (kind_of v))
  end.

Definition asBool (v : value) : outcome bool :=
  match v with
  | Bool b => Done b
  | _ => Thrown (IllegalCast KBool (kind_of v))
  end.

End Docopt.

(** ** The convert loop, [HBonds.cpp] *)

Module HBonds.

(** What the loop reads of [HBonds::Options]. *)
Record Options : Type := mkOptions {
  guess_bonds : bool;
  wrap : bool
}.

(** A range-based [for] whose variable is declared [auto x]: [x] is a copy
    of the element, the body assigns the copy, and the container is left as
    it was. *)
Definition for_auto {A : Type} (body : A -> A) (container : list A) : list A :=
  fold_left (fun kept x => let x := body x in kept) container container.

(** The same loop with [auto& x]: the body assigns the element. *)
Definition for_auto_ref {A : Type} (body : A -> A) (container : list A) : list A :=
  map body container.

(** [frame.positions()] written back into the frame. *)
Definition with_positions (f : Frame) (ps : list Vector3D) : Frame :=
  mkFrame (combine (topology f) ps) (velocities f) (bonds f) (cell f).

Section Commands.

(** [cell.wrap(v)] and [frame.guess_topology()] of chemfiles. *)
Variable cell_wrap : UnitCell.t -> Vector3D -> Vector3D.
Variable guess_topology : Frame -> Frame.

(** Lines 132 to 143: what is done to a frame between [read] and [write].
    [positions] is a view on the positions of the frame (a copy of them with
    the older interface of chemfiles): the frame holds what the loop leaves
    in it. *)
Definition process (options : Options) (frame : Frame) : Frame :=
  let frame := if guess_bonds options then guess_topology frame else frame in
  if wrap options then
    let positions := positions frame in
    let cell := cell frame in
    let positions := for_auto (fun position => cell_wrap cell position) positions in
    with_positions frame positions
  else frame.

(** Lines 129 to 146: [n] more steps are converted.  [infile] is the handle
    after lines 118 to 127: its steps are the frames as [read] returns them,
    the cell and the topology given on the command line applied. *)
Fixpoint convert_steps (n : nat) (options : Options) (infile : Trajectory)
  (outfile : OutTrajectory) : result Z * OutTrajectory :=
  match n with
  | O => (Ok 0%Z, outfile)
  | S n' =>
      match read infile with
      | Err e => (Err e, outfile)
      | Ok (frame, infile) =>
          let frame := process options frame in
          convert_steps n' options infile (write outfile frame)
      end
  end.

(** Lines 129 to 148 of [HBonds::run]: the loop over the steps of [infile]. *)
Definition convert_all (options : Options) (infile : Trajectory)
  (outfile : OutTrajectory) : result Z * OutTrajectory :=
  convert_steps (nsteps infile) options infile outfile.

(** What the documentation of the command describes: the positions of the
    written frame are the wrapped positions. *)
Definition process_documented (options : Options) (frame : Frame) : Frame :=
  let frame := if guess_bonds options then guess_topology frame else frame in
  if wrap options then
    with_positions frame (for_auto_ref (cell_wrap (cell frame)) (positions frame))
  else frame.

End Commands.

(** [HBonds::Options], as [parse_options] fills it.  [steps] is assigned and
    never read: of [steps_range::parse] only the exception is kept. *)
Module ParsedOptions.
Record t : Type := mk {
  infile : string;
  outfile : string;
  guess_bonds : bool;
  wrap : bool;
  input_format : string;
  output_format : string;
  topology : string;
  topology_format : string;
  custom_cell : bool;
  cell : UnitCell.t
}.
End ParsedOptions.

(** The operations on files of a run, in the order they happen. *)
Inductive file_op : Type :=
| Opened (path : string) (mode : string)
| Wrote (path : string) (frame : Frame).

Definition with_cell (c : UnitCell.t) (frame : Frame) : Frame :=
  mkFrame (atoms frame) (velocities frame) (bonds frame) c.

Section Run.

(** Of chemfiles: [cell.wrap(v)], [frame.guess_topology()] and
    [trajectory.set_topology(path, format)]; of [utils.hpp]: [parse_cell] and
    [steps_range::parse]; and the value of an [HBonds::Options] that was just
    declared. *)
Variable cell_wrap : UnitCell.t -> Vector3D -> Vector3D.
Variable guess_topology : Frame -> Frame.
Variable set_topology : Trajectory -> string -> string -> result Trajectory.
Variable parse_cell : string -> result UnitCell.t.
Variable parse_steps : string -> result unit.
Variable declared : ParsedOptions.t.

Definition lift {A : Type} (r : result A) : Docopt.outcome A :=
  match r with
  | Ok a => Docopt.Done a
  | Err e => Docopt.Thrown (Docopt.Raised e)
  end.

(** [if (args[key]) { field = args[key].asString(); }] *)
Definition optional_string (m : Docopt.args) (key : string) (default : string)
  : Docopt.outcome (string * Docopt.args) :=
  let '(v, m) := Docopt.index m key in
  if Docopt.holds v then
    let '(v, m) := Docopt.index m key in
    Docopt.and_then (Docopt.asString v) (fun s => Docopt.Done (s, m))
  else Docopt.Done (default, m).

(** [parse_options] of [HBonds.cpp] (lines 70 to 107), [args] being the
    result of [docopt::docopt] (line 68). *)
Definition parse_options (args : Docopt.args) : Docopt.outcome ParsedOptions.t :=
  let '(v, args) := Docopt.index args "<input>" in
  Docopt.and_then (Docopt.asString v) (fun infile =>
  let '(v, args) := Docopt.index args "<output>" in
  Docopt.and_then (Docopt.asString v) (fun outfile =>
  Docopt.and_then (Docopt.at_ args "--guess-bonds") (fun v =>
  Docopt.and_then (Docopt.asBool v) (fun guess_bonds =>
  Docopt.and_then (Docopt.at_ args "--wrap") (fun v =>
  Docopt.and_then (Docopt.asBool v) (fun wrap =>
  Docopt.and_then (Docopt.at_ args "--steps") (fun v =>
  Docopt.and_then
    (if Docopt.holds v then
       Docopt.and_then (Docopt.at_ args "--steps") (fun v =>
       Docopt.and_then (Docopt.asString v) (fun s => lift (parse_steps s)))
     else Docopt.Done tt) (fun _ =>
  Docopt.and_then
    (optional_string args "--input-format" (ParsedOptions.input_format declared))
    (fun '(input_format, args) =>
  Docopt.and_then
    (optional_string args "--output-format" (ParsedOptions.output_format declared))
    (fun '(output_format, args) =>
  let '(v, args) := Docopt.index args "--topology" in
  Docopt.and_then
    (if Docopt.holds v then
       if guess_bonds then
         Docopt.Thrown (Docopt.Raised
           (CFilesError "Can not use both '--topology' and '--guess-bonds'"))
       else
         let '(v, args) := Docopt.index args "--topology" in
         Docopt.and_then (Docopt.asString v) (fun s => Docopt.Done (s, args))
     else Docopt.Done (ParsedOptions.topology declared, args))
    (fun '(topology, args) =>
  let '(v, args) := Docopt.index args "--topology-format" in
  Docopt.and_then
    (if Docopt.holds v then
       if String.eqb topology ""
       then
         Docopt.Thrown (Docopt.Raised
           (CFilesError "Useless '--topology-format' without '--topology'"))
       else
         let '(v, args) := Docopt.index args "--topology-format" in
         Docopt.and_then (Docopt.asString v) (fun s => Docopt.Done (s, args))
     else Docopt.Done (ParsedOptions.topology_format declared, args))
    (fun '(topology_format, args) =>
  let '(v, args) := Docopt.index args "--cell" in
  if Docopt.holds v then
    let '(v, args) := Docopt.index args "--cell" in
    Docopt.and_then (Docopt.asString v) (fun s =>
    Docopt.and_then (lift (parse_cell s)) (fun cell =>
    Docopt.Done
      (ParsedOptions.mk infile outfile guess_bonds wrap input_format output_format
         topology topology_format true cell)))
  else
    Docopt.Done
      (ParsedOptions.mk infile outfile guess_bonds wrap input_format output_format
         topology topology_format (ParsedOptions.custom_cell declared)
         (ParsedOptions.cell declared))
  )))))))))))).

(** [HBonds::run] (lines 115 to 148).  [files] gives the steps of the
    trajectories that can be opened for reading.  Returns what the function
    returns or throws, and the operations on files it did. *)
Definition run (files : string -> option (list Frame)) (args : Docopt.args)
  : Docopt.outcome Z * list file_op :=
  match parse_options args with
  | Docopt.Thrown e => (Docopt.Thrown e, [])
  | Docopt.Done options =>
      match files (ParsedOptions.infile options) with
      | None =>
          (Docopt.Thrown (Docopt.Raised (FileError "can not open the input file")), [])
      | Some fs =>
          let infile := open fs in
          let ops :=
            [Opened (ParsedOptions.infile options) "r";
             Opened (ParsedOptions.outfile options) "w"] in
          let outfile := mkOutTrajectory None [] in
          let infile :=
            if ParsedOptions.custom_cell options
            then mkTrajectory (map (with_cell (ParsedOptions.cell options)) (steps infile))
                              (cursor infile)
            else infile in
          match
            (if negb (String.eqb (ParsedOptions.topology options) "")
             then set_topology infile (ParsedOptions.topology options)
                               (ParsedOptions.topology_format options)
             else Ok infile)
          with
          | Err e => (Docopt.Thrown (Docopt.Raised e), ops)
          | Ok infile =>
              let '(r, outfile) :=
                convert_all cell_wrap guess_topology
                  (mkOptions (ParsedOptions.guess_bonds options)
                             (ParsedOptions.wrap options))
                  infile outfile in
              (lift r,
               ops ++ map (Wrote (ParsedOptions.outfile options)) (written outfile))
          end
      end
  end.

End Run.

(** The keys of the result of [docopt::docopt] for the usage text of
    [HBonds.cpp]: the command, the argument and the options it declares. *)
Definition usage_keys : list string :=
  ["hbonds"; "<trajectory>"; "--help"; "--output"; "--format"; "--topology";
   "--topology-format"; "--guess-bonds"; "--cell"; "--steps"; "--selection";
   "--parameters"].

End HBonds.

(** ** chemfiles functions on the cells used in the examples *)

Module Chemfiles.

(** [round]: to the nearest integer, halves away from zero. *)
Definition round (x : Q) : Z :=
  if Qle_bool 0 x then Qfloor (x + (1 # 2))%Q else Qceiling (x - (1 # 2))%Q.

Definition wrap1 (len x : Q) : Q := (x - inject_Z (round (x / len)) * len)%Q.

(** [cell.wrap(v)] for infinite and orthorhombic cells: the image of [v]
    closest to the origin. *)
Definition wrap (cell : UnitCell.t) (v : Vector3D) : Vector3D :=
  match UnitCell.shape cell with
  | ORTHORHOMBIC =>
      let '(x, y, z) := v in
      (Qred (wrap1 (UnitCell.a cell) x), Qred (wrap1 (UnitCell.b cell) y),
       Qred (wrap1 (UnitCell.c cell) z))
  | _ => v
  end.

(** [cell.volume()] for infinite and orthorhombic cells. *)
Definition volume (cell : UnitCell.t) : Q :=
  match UnitCell.shape cell with
  | INFINITE => 0%Q
  | _ => (UnitCell.a cell * UnitCell.b cell * UnitCell.c cell)%Q
  end.

(** [norm(v)]: the square root of [x * x + y * y + z * z] rounded down to 15
    decimals, a double holding between 15 and 17 significant digits; exact
    when the root has no more decimals. *)
Definition norm (v : Vector3D) : Q :=
  let '(x, y, z) := v in
  let s := (x * x + y * y + z * z)%Q in
  Qred (Z.sqrt (Qfloor (s * inject_Z (10 ^ 30))) # 10 ^ 15).

Definition all_atoms (frame : Frame) : list nat := seq 0 (size frame).

(** [Selection(string)] on the three selections of the examples. *)
Definition parse_selection (s : string) : Selection :=
  if String.eqb s "all" then mkSelection 1 all_atoms (fun _ => [])
  else if String.eqb s "pairs: all" then
    mkSelection 2 (fun _ => [])
      (fun frame =>
         filter (fun p => negb (fst p =? snd p))
                (list_prod (all_atoms frame) (all_atoms frame)))
  else mkSelection 3 (fun _ => []) (fun _ => []).

Definition guess_topology (frame : Frame) : Frame := frame.

End Chemfiles.

(** ** Frames and commands of the examples *)

Module Examples.

Definition atom (name : string) (x y z : Q) : Atom * Vector3D :=
  (mkAtom name, (x, y, z)).

(** Two atoms at a distance of 3 in a cubic cell of side 10. *)
Definition two_atoms : Frame :=
  mkFrame [atom "O" 0 0 0; atom "O" 3 0 0] None []
          (UnitCell.orthorhombic 10 10 10).

(** The same atoms without a cell. *)
Definition two_atoms_free : Frame :=
  mkFrame [atom "O" 0 0 0; atom "O" 3 0 0] None [] UnitCell.default.

(** [cfiles rdf --max=5 --points=5 <trajectory>] and the three selections. *)
Definition rdf_args (selection : string) : Rdf.Args :=
  Rdf.mkArgs None 5 5 selection.

Definition no_cell : Rdf.AverageOptions :=
  Rdf.mkAverageOptions "water.xyz" false UnitCell.default.

(** [--cell=8:6:10] *)
Definition with_cell : Rdf.AverageOptions :=
  Rdf.mkAverageOptions "water.xyz" true (UnitCell.orthorhombic 8 6 10).

(** An [Rdf] object before [setup]: [Rdf(): selection_("all")]. *)
Definition rdf_initial : Rdf.State :=
  Rdf.mkState
    (Rdf.mk (Rdf.mkOptions "" "" 0 0) (Chemfiles.parse_selection "all"))
    (Histogram.make 0 0 0) [].

(** The object after [setup] on [rdf_args "all"]. *)
Definition rdf_all : Rdf.t :=
  Rdf.mk (Rdf.mkOptions "water.xyz.rdf" "all" 5 5) (Chemfiles.parse_selection "all").

Definition rdf_pairs : Rdf.t :=
  Rdf.mk (Rdf.mkOptions "water.xyz.rdf" "pairs: all" 5 5)
         (Chemfiles.parse_selection "pairs: all").

(** A frame of two atoms with the bond (0, 1), and one of three atoms with
    the bond (1, 2) and velocities. *)
Definition pair_bonded : Frame :=
  mkFrame [atom "H" 0 0 0; atom "H" 1 0 0] None [(0, 1)%Z] UnitCell.default.

Definition triple_bonded : Frame :=
  mkFrame [atom "O" 5 0 0; atom "H" 6 0 0; atom "H" 5 1 0]
          (Some [(1, 0, 0); (0, 1, 0); (0, 0, 1)]%Q) [(1, 2)%Z] UnitCell.default.

(** Trajectories of one atom: [A] has 3 steps and [B] has 5, without
    cells. *)
Definition step_of (name : string) (k : Z) : Frame :=
  mkFrame [atom name (inject_Z k) 0 0] None [] UnitCell.default.

Definition trajectory_A : list Frame := map (step_of "A") [0; 1; 2]%Z.
Definition trajectory_B : list Frame := map (step_of "B") [0; 1; 2; 3; 4]%Z.

(** Two trajectories of one step, in cells of sides 10 and 20. *)
Definition in_cell (side : Q) : Frame :=
  mkFrame [atom "Ar" 1 1 1] None [] (UnitCell.orthorhombic side side side).

Definition free : Frame :=
  mkFrame [atom "Ar" 1 1 1] None [] UnitCell.default.

(** No [--cell], and [--cell=30]. *)
Definition merge_plain : Merge.Options.t :=
  Merge.Options.mk false UnitCell.default.

Definition merge_forced : Merge.Options.t :=
  Merge.Options.mk true (UnitCell.orthorhombic 30 30 30).

(** An atom outside of the cell it is in, and [--wrap]. *)
Definition outside : Frame :=
  mkFrame [atom "Ar" 15 0 0] None [] (UnitCell.orthorhombic 10 10 10).

Definition convert_wrap : HBonds.Options :=
  HBonds.mkOptions false true.

Definition empty_output : OutTrajectory := mkOutTrajectory None [].

End Examples.

(** ** Predicates on histograms and values *)

(** Same bounds, same number of bins. *)
Definition same_shape_as (h h' : Histogram.t) : Prop :=
  Histogram.bin_count h' = Histogram.bin_count h
  /\ Histogram.lower_bound h' = Histogram.lower_bound h
  /\ Histogram.upper_bound h' = Histogram.upper_bound h
  /\ List.length (Histogram.bins h') = List.length (Histogram.bins h).

(** A value that is 0 or NaN. *)
Definition zero_or_nan (d : double) : Prop :=
  d = NaN \/ exists z, d = Fin z /\ (z == 0)%Q.

(** ** More frames for the examples *)

Module MoreExamples.

(** One atom in a cell of side 10, with a velocity. *)
Definition moving : Frame :=
  mkFrame [Examples.atom "Ar" 1 1 1] (Some [(1, 2, 3)%Q]) []
          (UnitCell.orthorhombic 10 10 10).

(** A single atom, matched alone by the selection [all]. *)
Definition one_atom : Frame :=
  mkFrame [Examples.atom "O" 0 0 0] None [] (UnitCell.orthorhombic 10 10 10).


Definition declared : Merge.ParsedOptions.t :=
  Merge.ParsedOptions.mk [] "" [] "" false UnitCell.default.

(** [split] on the two lists of formats of the examples. *)
Definition split (s : string) : list string :=
  if String.eqb s "XYZ,PDB" then ["XYZ"; "PDB"] else [s].

Definition parse_cell (s : string) : result UnitCell.t :=
  if String.eqb s "10" then Ok (UnitCell.orthorhombic 10 10 10)
  else Err (CFilesError "can not parse the cell").

(** Two atoms 9 apart along an axis of a cubic cell of side 10: the closest
    images are 1 apart. *)
Definition across : Frame :=
  mkFrame [Examples.atom "O" 0 0 0; Examples.atom "O" 9 0 0] None []
          (UnitCell.orthorhombic 10 10 10).

(** The result of docopt for [cfiles hbonds water.xyz]: the keys of the
    usage text, the options that were not given being empty or false and
    [--selection] and [--parameters] having their default values. *)
Definition hbonds_args : Docopt.args :=
  [("hbonds", Docopt.Bool true); ("<trajectory>", Docopt.Str "water.xyz");
   ("--help", Docopt.Bool false); ("--output", Docopt.Empty);
   ("--format", Docopt.Empty); ("--topology", Docopt.Empty);
   ("--topology-format", Docopt.Empty); ("--guess-bonds", Docopt.Bool false);
   ("--cell", Docopt.Empty); ("--steps", Docopt.Empty);
   ("--selection", Docopt.Str "angles: all");
   ("--parameters", Docopt.Str "3.0:30.0")].

(** The trajectory [water.xyz] holds the frame [outside]. *)
Definition files (path : string) : option (list Frame) :=
  if String.eqb path "water.xyz" then Some [Examples.outside] else None.

Definition set_topology (t : Trajectory) (path format : string) : result Trajectory :=
  Ok t.

Definition parse_steps (s : string) : result unit := Ok tt.

Definition hbonds_declared : HBonds.ParsedOptions.t :=
  HBonds.ParsedOptions.mk "" "" false false "" "" "" "" false UnitCell.default.

End MoreExamples.

(** * Properties *)

(** ** Helper lemmas on lists *)

Lemma fold_left_nested {A B C : Type} (g : A -> B -> C -> C) (l1 : list A)
  (l2 : list B) (init : C) :
  fold_left (fun acc i => fold_left (fun acc j => g i j acc) l2 acc) l1 init
  = fold_left (fun acc p => g (fst p) (snd p) acc) (list_prod l1 l2) init.
Proof.
  revert init. induction l1 as [|x l1 IH]; intros init; simpl.
  - reflexivity.
  - rewrite fold_left_app, IH. f_equal.
    clear IH. revert init. induction l2 as [|y l2 IH2]; intros init; simpl.
    + reflexivity.
    + apply IH2.
Qed.

Lemma fold_left_filter {A C : Type} (test : A -> bool) (f : C -> A -> C)
  (l : list A) (init : C) :
  fold_left (fun acc x => if test x then f acc x else acc) l init
  = fold_left f (filter test l) init.
Proof.
  revert init. induction l as [|x l IH]; intros init; simpl.
  - reflexivity.
  - destruct (test x); simpl; apply IH.
Qed.

Lemma fold_left_ext {A C : Type} (f g : C -> A -> C) (l : list A) (init : C) :
  (forall acc x, f acc x = g acc x) -> fold_left f l init = fold_left g l init.
Proof.
  intros E. revert init. induction l as [|x l IH]; intros init; simpl.
  - reflexivity.
  - rewrite E. apply IH.
Qed.

Lemma Qltb_lt (x y : Q) : Qltb x y = true <-> (x < y)%Q.
Proof.
  unfold Qltb. rewrite negb_true_iff. split.
  - intros H. apply Qnot_le_lt. intros L. apply Qle_bool_iff in L. congruence.
  - intros H. destruct (Qle_bool y x) eqn:L; [|reflexivity].
    apply Qle_bool_iff in L. exfalso. exact (Qlt_not_le _ _ H L).
Qed.

Lemma nth_last {A : Type} (l : list A) (d : A) :
  nth (List.length l - 1) l d = last l d.
Proof.
  induction l as [|x l IH]; [reflexivity|].
  destruct l as [|y l]; [reflexivity|].
  simpl in *. rewrite Nat.sub_0_r in IH. exact IH.
Qed.

(** ** The rdf command *)

Section RdfFacts.

Variable wrap : UnitCell.t -> Vector3D -> Vector3D.
Variable norm : Vector3D -> Q.

Lemma in_distinct_pairs (matched : list nat) (i j : nat) :
  In (i, j) (Rdf.distinct_pairs matched) <-> In i matched /\ In j matched /\ i <> j.
Proof.
  unfold Rdf.distinct_pairs. rewrite filter_In, in_prod_iff. simpl.
  rewrite negb_true_iff, Nat.eqb_neq. tauto.
Qed.

(** The pairs that pass the test are inserted one after the other, and
    counted. *)
Lemma record_pairs (rmax : Q) (frame : Frame) (pairs : list (nat * nat))
  (h : Histogram.t) (n : nat) :
  fold_left (fun acc p => Rdf.record_pair wrap norm rmax frame (fst p) (snd p) acc)
            pairs (h, n)
  = (fold_left Histogram.insert_at
       (map (fun p => Rdf.distance wrap norm frame (fst p) (snd p))
            (filter (Rdf.below wrap norm rmax frame) pairs)) h,
     n + List.length (filter (Rdf.below wrap norm rmax frame) pairs)).
Proof.
  revert h n. induction pairs as [|p pairs IH]; intros h n; simpl.
  - now rewrite Nat.add_0_r.
  - assert (E : Rdf.record_pair wrap norm rmax frame (fst p) (snd p) (h, n)
               = if Rdf.below wrap norm rmax frame p
                 then (Histogram.insert_at h (Rdf.distance wrap norm frame (fst p) (snd p)), S n)
                 else (h, n)) by reflexivity.
    rewrite E. destruct (Rdf.below wrap norm rmax frame p); simpl.
    + rewrite IH. f_equal. lia.
    + apply IH.
Qed.

(** The loops of [accumulate] visit the pairs the documentation describes. *)
Lemma accumulate_pairs_considered (this : Rdf.t) (frame : Frame) (h : Histogram.t) :
  Rdf.accumulate_pairs wrap norm this frame h
  = fold_left
      (fun acc p =>
         Rdf.record_pair wrap norm (Rdf.rmax (Rdf.options_ this)) frame (fst p) (snd p) acc)
      (Rdf.considered_pairs this frame) (h, 0).
Proof.
  unfold Rdf.accumulate_pairs, Rdf.considered_pairs.
  destruct (sel_size (Rdf.selection_ this) =? 1).
  - unfold Rdf.distinct_pairs.
    rewrite <- fold_left_filter.
    rewrite (fold_left_nested
               (fun i j acc =>
                  if i =? j then acc
                  else Rdf.record_pair wrap norm (Rdf.rmax (Rdf.options_ this)) frame i j acc)).
    apply fold_left_ext. intros acc [i j]. simpl.
    now destruct (i =? j).
  - reflexivity.
Qed.

(** C7. For a selection of size 1, [Rdf::accumulate] goes through the ordered
    pairs [(i, j)] of matched atoms with [i <> j], and through no pair
    [(i, i)]; for a selection of size 2 it goes through the matches of the
    selection.  The distance of a pair is the norm of [positions[j] -
    positions[i]] wrapped through the cell of the frame.  Of the pairs it goes
    through, those at a distance strictly below [rmax], and only those, are
    inserted in the histogram, at that distance and in order, and counted. *)
Theorem accumulate_considers_distinct_pairs (this : Rdf.t) (frame : Frame)
  (h : Histogram.t) :
  let selection := Rdf.selection_ this in
  let rmax := Rdf.rmax (Rdf.options_ this) in
  let pairs := Rdf.considered_pairs this frame in
  let minimum_image (p : nat * nat) :=
    norm (wrap (cell frame)
               (vsub (nth (snd p) (map snd (atoms frame)) vzero)
                     (nth (fst p) (map snd (atoms frame)) vzero))) in
  let kept := filter (fun p => negb (Qle_bool rmax (minimum_image p))) pairs in
  (sel_size selection = 1 ->
     forall i j, In (i, j) pairs <->
       In i (sel_list selection frame) /\ In j (sel_list selection frame) /\ i <> j)
  /\ (sel_size selection = 1 -> forall i, ~ In (i, i) pairs)
  /\ (sel_size selection = 2 -> pairs = sel_evaluate selection frame)
  /\ (forall p, In p kept <-> In p pairs /\ (minimum_image p < rmax)%Q)
  /\ Rdf.accumulate_pairs wrap norm this frame h
     = (fold_left Histogram.insert_at (map minimum_image kept) h, List.length kept).
Proof.
  intros selection rmax pairs minimum_image kept.
  assert (D : forall p, Rdf.distance wrap norm frame (fst p) (snd p) = minimum_image p)
    by reflexivity.
  assert (K : kept = filter (Rdf.below wrap norm rmax frame) pairs) by reflexivity.
  split; [|split; [|split; [|split]]].
  - intros E i j. subst pairs. unfold Rdf.considered_pairs. fold selection.
    rewrite E. simpl. apply in_distinct_pairs.
  - intros E i H. subst pairs. unfold Rdf.considered_pairs in H.
    fold selection in H. rewrite E in H. simpl in H.
    apply in_distinct_pairs in H. tauto.
  - intros E. subst pairs. unfold Rdf.considered_pairs. fold selection.
    now rewrite E.
  - intros p. rewrite K, filter_In. unfold Rdf.below.
    rewrite Qltb_lt, D. tauto.
  - rewrite accumulate_pairs_considered, record_pairs, K. reflexivity.
Qed.

End RdfFacts.

Section RdfSetup.

Variable parse_selection : string -> Selection.

(** [setup] does no operation on files, whether it throws or not. *)
Lemma setup_no_io (args : Rdf.Args) (avg : Rdf.AverageOptions) (st : Rdf.State) :
  Rdf.io (snd (Rdf.setup parse_selection args avg st)) = Rdf.io st.
Proof.
  unfold Rdf.setup. now destruct (2 <? sel_size _).
Qed.

(** [setup] throws exactly when the selection matches more than two atoms. *)
Lemma setup_ok_iff (args : Rdf.Args) (avg : Rdf.AverageOptions) (st : Rdf.State) :
  fst (Rdf.setup parse_selection args avg st) = Ok tt
  <-> sel_size (parse_selection (Rdf.arg_selection args)) <= 2.
Proof.
  unfold Rdf.setup.
  destruct (2 <? sel_size _) eqn:E; simpl.
  - apply Nat.ltb_lt in E. split; [discriminate | lia].
  - apply Nat.ltb_ge in E. tauto.
Qed.

(** C6. When a unit cell was given on the command line, [setup] sets [rmax]
    to half the smallest of the lengths [a], [b] and [c] of that cell,
    whatever [--max] says, and the histogram ranges from 0 to that value. *)
Theorem setup_custom_cell_rmax (args : Rdf.Args) (avg : Rdf.AverageOptions)
  (st : Rdf.State) (Hcell : Rdf.custom_cell avg = true) :
  let cell := Rdf.avg_cell avg in
  let half := (Qmin (UnitCell.a cell) (Qmin (UnitCell.b cell) (UnitCell.c cell)) / 2)%Q in
  let st' := snd (Rdf.setup parse_selection args avg st) in
  Rdf.rmax (Rdf.options_ (Rdf.self st')) = half
  /\ Histogram.upper_bound (Rdf.histogram st') = half
  /\ Histogram.lower_bound (Rdf.histogram st') = 0%Q
  /\ Histogram.bin_count (Rdf.histogram st') = Rdf.arg_points args.
Proof.
  unfold Rdf.setup. rewrite Hcell.
  destruct (2 <? sel_size _); simpl; repeat split; reflexivity.
Qed.

(** C8. When the selection matches more than two atoms together, [setup]
    throws a [CFilesError], and it has done no operation on a file by
    then. *)
Theorem setup_rejects_large_selection (args : Rdf.Args) (avg : Rdf.AverageOptions)
  (st : Rdf.State)
  (Hsize : 2 < sel_size (parse_selection (Rdf.arg_selection args))) :
  fst (Rdf.setup parse_selection args avg st)
  = Err (CFilesError "Can not use a selection with more than two atoms in RDF.")
  /\ Rdf.io (snd (Rdf.setup parse_selection args avg st)) = Rdf.io st.
Proof.
  split; [|apply setup_no_io].
  unfold Rdf.setup. apply Nat.ltb_lt in Hsize. now rewrite Hsize.
Qed.

End RdfSetup.

(** With [--cell=8:6:10] and [--max=5], [rmax] is 3. *)
Lemma setup_custom_cell_rmax_witness :
  Rdf.custom_cell Examples.with_cell = true
  /\ Rdf.arg_max (Examples.rdf_args "all") = 5%Q
  /\ Rdf.rmax (Rdf.options_ (Rdf.self (snd (Rdf.setup Chemfiles.parse_selection
       (Examples.rdf_args "all") Examples.with_cell Examples.rdf_initial))))
     = (Qmin 8 (Qmin 6 10) / 2)%Q.
Proof.
  split; [reflexivity|]. split; [reflexivity|].
  apply (setup_custom_cell_rmax Chemfiles.parse_selection (Examples.rdf_args "all")
           Examples.with_cell Examples.rdf_initial).
  reflexivity.
Defined.

(** A selection of angles is refused before any file is touched. *)
Lemma setup_rejects_large_selection_witness :
  2 < sel_size (Chemfiles.parse_selection "angles: all")
  /\ Rdf.io (snd (Rdf.setup Chemfiles.parse_selection
       (Examples.rdf_args "angles: all") Examples.no_cell Examples.rdf_initial)) = [].
Proof.
  split; [vm_compute; lia|].
  apply (setup_rejects_large_selection Chemfiles.parse_selection
           (Examples.rdf_args "angles: all") Examples.no_cell Examples.rdf_initial).
  vm_compute; lia.
Defined.

(** For the selection [all] on two atoms the pairs are (0, 1) and (1, 0).
    When the atoms are at 0 and 9 on an axis of a cell of side 10 and [rmax]
    is 5, both pairs are at the distance 1 of the closest images and are
    inserted in the bin of index 1, although the atoms are 9 apart. *)
Lemma accumulate_considers_distinct_pairs_witness :
  sel_size (Rdf.selection_ Examples.rdf_all) = 1
  /\ sel_list (Rdf.selection_ Examples.rdf_all) Examples.two_atoms = [0; 1]
  /\ ~ In (0, 0) (Rdf.considered_pairs Examples.rdf_all Examples.two_atoms)
  /\ ~ In (1, 1) (Rdf.considered_pairs Examples.rdf_all Examples.two_atoms)
  /\ Chemfiles.norm (vsub (9, 0, 0)%Q (0, 0, 0)%Q) = 9%Q
  /\ Rdf.accumulate_pairs Chemfiles.wrap Chemfiles.norm Examples.rdf_all
       MoreExamples.across (Histogram.make 5 0 5)
     = (Histogram.mk 5 0 5 [Fin 0; Fin 2; Fin 0; Fin 0; Fin 0], 2).
Proof.
  split; [reflexivity|]. split; [reflexivity|].
  destruct (accumulate_considers_distinct_pairs Chemfiles.wrap Chemfiles.norm
              Examples.rdf_all Examples.two_atoms (Histogram.make 5 0 5))
    as [_ [H _]].
  split; [apply H; reflexivity|]. split; [apply H; reflexivity|].
  split; [vm_compute; reflexivity|].
  destruct (accumulate_considers_distinct_pairs Chemfiles.wrap Chemfiles.norm
              Examples.rdf_all MoreExamples.across (Histogram.make 5 0 5))
    as (_ & _ & _ & _ & A).
  rewrite A. vm_compute. reflexivity.
Defined.

Section RdfDensity.

Variable volume : UnitCell.t -> Q.

(** In a cell of positive volume the density of [accumulate] is the number
    of atoms: the volume is replaced by 1 before the division. *)
Lemma density_positive_volume (frame : Frame) :
  (0 < volume (cell frame))%Q ->
  Double.eqb (Rdf.density volume frame) (Double.of_nat (size frame)) = true.
Proof.
  intros H. unfold Rdf.density. apply Qltb_lt in H. rewrite H.
  unfold Double.div, Double.of_nat. simpl Qeq_bool. simpl Double.eqb.
  apply Qeq_bool_iff. field.
Qed.

(** In a cell of volume 0, which is what chemfiles gives for an infinite
    cell, the division is a division by 0. *)
Lemma density_zero_volume (frame : Frame) :
  volume (cell frame) = 0%Q -> 0 < size frame ->
  Rdf.density volume frame = PInf.
Proof.
  intros H N. unfold Rdf.density. rewrite H. simpl.
  unfold Double.sgn. simpl. destruct (size frame); [lia|reflexivity].
Qed.

Lemma nth_error_mapi_from {A B : Type} (f : nat -> A -> B) (l : list A) (s i : nat) :
  nth_error (Histogram.mapi_from s f l) i = option_map (f (s + i)) (nth_error l i).
Proof.
  revert s i. induction l as [|x l IH]; intros s i; simpl.
  - now destruct i.
  - destruct i as [|i]; simpl.
    + now rewrite Nat.add_0_r.
    + rewrite IH. now rewrite Nat.add_succ_r.
Qed.

(** Apart from the density, the normalisation is the documented one: a bin
    holding [v] becomes [v / (K * rho * n_pairs * dr * r_i^2)] for the
    density [rho] that [accumulate] computed. *)
Lemma normalize_frame_formula (frame : Frame) (npairs : nat) (h : Histogram.t)
  (i : nat) (v rho : Q) :
  nth_error (Histogram.bins h) i = Some (Fin v) ->
  Rdf.density volume frame = Fin rho ->
  ~ (Histogram.bin_size h == 0)%Q ->
  ~ (rho * inject_Z (Z.of_nat npairs) == 0)%Q ->
  exists q,
    nth_error (Histogram.bins (Rdf.normalize_frame volume frame npairs h)) i
    = Some (Fin q)
    /\ (q == Rdf.documented_bin rho npairs (Histogram.bin_size h) i v)%Q.
Proof.
  intros Hv Hrho Hdr Hn.
  unfold Rdf.normalize_frame, Rdf.normalize_with, Histogram.normalize.
  cbn [Histogram.bins]. rewrite nth_error_mapi_from, Hv, Hrho. cbn [option_map].
  unfold Double.of_nat. cbn [Double.mul Nat.add].
  set (dr := Histogram.bin_size h) in *.
  set (r := ((inject_Z (Z.of_nat i) + (1 # 2)) * dr)%Q).
  set (d := ((1 # 1000000) * 2 * 4 * Rdf.pi * rho * inject_Z (Z.of_nat npairs)
             * dr * r * r)%Q).
  assert (E : (d == Rdf.K * rho * inject_Z (Z.of_nat npairs) * dr * (r * r))%Q)
    by (unfold d, Rdf.K; ring).
  assert (Kpos : ~ (Rdf.K == 0)%Q) by (vm_compute; discriminate).
  assert (Hr : ~ (r == 0)%Q).
  { unfold r. intros Z0. apply Qmult_integral in Z0. destruct Z0 as [Z0|Z0].
    - assert (0 <= inject_Z (Z.of_nat i))%Q
        by (change 0%Q with (inject_Z 0); rewrite <- Zle_Qle; lia).
      assert (0 < inject_Z (Z.of_nat i) + (1 # 2))%Q
        by (apply Qlt_le_trans with (0 + (1 # 2))%Q;
            [reflexivity | apply Qplus_le_l; assumption]).
      rewrite Z0 in *. now apply (Qlt_irrefl 0).
    - exact (Hdr Z0). }
  assert (N : ~ (d == 0)%Q).
  { assert (P : (d == rho * inject_Z (Z.of_nat npairs) * (Rdf.K * dr * (r * r)))%Q)
      by (rewrite E; ring).
    rewrite P. intros Z0.
    apply Qmult_integral in Z0. destruct Z0 as [Z0|Z0]; [contradiction|].
    apply Qmult_integral in Z0. destruct Z0 as [Z0|Z0].
    - apply Qmult_integral in Z0. destruct Z0; contradiction.
    - apply Qmult_integral in Z0. destruct Z0; contradiction. }
  unfold Double.div.
  destruct (Qeq_bool d 0) eqn:B; [apply Qeq_bool_iff in B; contradiction|].
  exists (v / d)%Q. split; [reflexivity|].
  unfold Rdf.documented_bin. fold r. now rewrite E.
Qed.

End RdfDensity.

(** C1. The frame [two_atoms] has two atoms in a cell of volume 1000, one
    pair of atoms at distance 3 counted twice, and [dr = 1].  The documented
    density is 2 / 1000; [accumulate] uses 2, and the bin of index 3 holds
    [2 / (K * 2 * 2 * 1 * 3.5^2)], which is not the documented
    [2 / (K * (2 / 1000) * 2 * 1 * 3.5^2)].  Without a cell
    ([two_atoms_free], volume 0) the documented density is 2; [accumulate]
    divides by 0 and every bin becomes 0. *)
Theorem accumulate_density_inverted :
  let accumulate :=
    Rdf.accumulate Chemfiles.wrap Chemfiles.norm Chemfiles.volume Examples.rdf_all in
  let empty := Histogram.make 5 0 5 in
  Chemfiles.volume (cell Examples.two_atoms) = 1000%Q
  /\ Histogram.bins
       (fst (Rdf.accumulate_pairs Chemfiles.wrap Chemfiles.norm Examples.rdf_all
               Examples.two_atoms empty))
     = [Fin 0; Fin 0; Fin 0; Fin 2; Fin 0]
  /\ Rdf.documented_density Chemfiles.volume Examples.two_atoms = Fin (2 / 1000)
  /\ Rdf.density Chemfiles.volume Examples.two_atoms = Fin 2
  /\ Double.eqb (Histogram.get (accumulate Examples.two_atoms empty) 3)
                (Fin (Rdf.documented_bin 2 2 1 3 2)) = true
  /\ Double.eqb (Histogram.get (accumulate Examples.two_atoms empty) 3)
                (Fin (Rdf.documented_bin (2 / 1000) 2 1 3 2)) = false
  /\ Chemfiles.volume (cell Examples.two_atoms_free) = 0%Q
  /\ Rdf.documented_density Chemfiles.volume Examples.two_atoms_free = Fin 2
  /\ Rdf.density Chemfiles.volume Examples.two_atoms_free = PInf
  /\ Histogram.bins (accumulate Examples.two_atoms_free empty)
     = [Fin 0; Fin 0; Fin 0; Fin 0; Fin 0].
Proof.
  repeat split; vm_compute; reflexivity.
Qed.

(** ** The merge command: the output frame of a step *)

Section MergeOutput.

Lemma add_atoms_spec (l : list (Atom * Vector3D)) (out : Frame) :
  let out' := fold_left (fun out atom => add_atom out (fst atom) (snd atom)) l out in
  atoms out' = atoms out ++ l
  /\ bonds out' = bonds out
  /\ cell out' = cell out
  /\ has_velocities out' = has_velocities out.
Proof.
  revert out. induction l as [|[x p] l IH]; intros out; simpl.
  - now rewrite app_nil_r.
  - destruct (IH (add_atom out x p)) as (Ha & Hb & Hc & Hv).
    rewrite Ha, Hb, Hc, Hv. simpl. rewrite <- app_assoc. simpl.
    repeat split. unfold has_velocities. simpl. now destruct (velocities out).
Qed.

Lemma set_velocities_spec (start : Z) (vs : list Vector3D) (idx : list nat)
  (out : Frame) :
  let out' :=
    fold_left (fun out i =>
      Merge.set_velocity out (Merge.offset start (Z.of_nat i)) (nth i vs vzero))
      idx out in
  atoms out' = atoms out
  /\ bonds out' = bonds out
  /\ cell out' = cell out
  /\ has_velocities out' = has_velocities out.
Proof.
  revert out. induction idx as [|i idx IH]; intros out; simpl.
  - repeat split.
  - destruct (IH (Merge.set_velocity out (Merge.offset start (Z.of_nat i)) (nth i vs vzero)))
      as (Ha & Hb & Hc & Hv).
    rewrite Ha, Hb, Hc, Hv. simpl. repeat split.
    unfold has_velocities. simpl. now destruct (velocities out).
Qed.

Lemma add_bonds_spec (start : Z) (l : list Bond) (out : Frame) :
  let out' :=
    fold_left (fun out bond =>
      add_bond out (Merge.offset start (fst bond)) (Merge.offset start (snd bond)))
      l out in
  atoms out' = atoms out
  /\ bonds out'
     = bonds out
       ++ map (fun bond => (Merge.offset start (fst bond), Merge.offset start (snd bond))) l
  /\ cell out' = cell out
  /\ has_velocities out' = has_velocities out.
Proof.
  revert out. induction l as [|bond l IH]; intros out; simpl.
  - now rewrite app_nil_r.
  - destruct (IH (add_bond out (Merge.offset start (fst bond))
                           (Merge.offset start (snd bond))))
      as (Ha & Hb & Hc & Hv).
    rewrite Ha, Hb, Hc, Hv. simpl. rewrite <- app_assoc. repeat split.
Qed.

(** One input frame added to the output frame. *)
Lemma append_frame_spec (out : Frame) (start : Z) (frame : Frame) :
  let out' := fst (Merge.append_frame (out, start) frame) in
  atoms out' = atoms out ++ atoms frame
  /\ bonds out'
     = bonds out
       ++ map (fun bond => (Merge.offset start (fst bond), Merge.offset start (snd bond)))
              (bonds frame)
  /\ cell out' = cell out
  /\ has_velocities out' = has_velocities out
  /\ snd (Merge.append_frame (out, start) frame)
     = Merge.to_int (Merge.offset start (Z.of_nat (size frame))).
Proof.
  unfold Merge.append_frame. simpl.
  set (o1 := fold_left (fun out atom => add_atom out (fst atom) (snd atom))
                       (atoms frame) out).
  destruct (add_atoms_spec (atoms frame) out) as (Ha1 & Hb1 & Hc1 & Hv1).
  fold o1 in Ha1, Hb1, Hc1, Hv1.
  set (o2 := match velocities frame with
             | Some vs =>
                 fold_left (fun out i =>
                   Merge.set_velocity out (Merge.offset start (Z.of_nat i))
                                      (nth i vs vzero))
                   (seq 0 (size frame)) o1
             | None => o1
             end).
  assert (H2 : atoms o2 = atoms o1 /\ bonds o2 = bonds o1 /\ cell o2 = cell o1
               /\ has_velocities o2 = has_velocities o1).
  { subst o2. destruct (velocities frame) as [vs|].
    - apply set_velocities_spec.
    - repeat split. }
  destruct H2 as (Ha2 & Hb2 & Hc2 & Hv2).
  destruct (add_bonds_spec start (bonds frame) o2) as (Ha3 & Hb3 & Hc3 & Hv3).
  simpl in Ha3, Hb3, Hc3, Hv3.
  rewrite Ha3, Hb3, Hc3, Hv3, Ha2, Hb2, Hc2, Hv2, Ha1, Hb1, Hc1, Hv1.
  repeat split.
Qed.

(** The frames added one after the other, whatever the offsets are. *)
Lemma append_frames_spec (frames : list Frame) (out : Frame) (start : Z) :
  let out' := fst (fold_left Merge.append_frame frames (out, start)) in
  atoms out' = atoms out ++ concat (map atoms frames)
  /\ cell out' = cell out
  /\ has_velocities out' = has_velocities out.
Proof.
  revert out start. induction frames as [|frame frames IH]; intros out start.
  - simpl. now rewrite app_nil_r.
  - cbn [fold_left map concat].
    destruct (append_frame_spec out start frame) as (Ha & _ & Hc & Hv & _).
    destruct (Merge.append_frame (out, start) frame) as [o s].
    cbn [fst] in Ha, Hc, Hv.
    destruct (IH o s) as (Ha' & Hc' & Hv'). cbv zeta in Ha', Hc', Hv'.
    rewrite Ha', Hc', Hv', Ha, Hc, Hv. rewrite <- app_assoc. repeat split.
Qed.

Lemma count_spec (frames : list Frame) (v : bool) (n : nat) :
  fold_left (fun acc frame =>
    (fst acc || has_velocities frame, snd acc + size frame)) frames (v, n)
  = (v || existsb has_velocities frames, n + Merge.total_size frames).
Proof.
  revert v n. induction frames as [|frame frames IH]; intros v n; simpl.
  - now rewrite orb_false_r, Nat.add_0_r.
  - rewrite IH. unfold Merge.total_size. simpl.
    now rewrite orb_assoc, Nat.add_assoc.
Qed.

Lemma length_concat_atoms (frames : list Frame) :
  List.length (concat (map atoms frames)) = Merge.total_size frames.
Proof.
  unfold Merge.total_size. induction frames as [|frame frames IH]; simpl.
  - reflexivity.
  - rewrite length_app, IH. reflexivity.
Qed.

(** The output frame of a step starts from [Frame()] and is never given a
    cell. *)
Lemma build_output_spec (frames : list Frame) :
  atoms (Merge.build_output frames) = concat (map atoms frames)
  /\ cell (Merge.build_output frames) = UnitCell.default
  /\ has_velocities (Merge.build_output frames) = existsb has_velocities frames.
Proof.
  unfold Merge.build_output, Merge.count. rewrite count_spec. simpl.
  destruct (existsb has_velocities frames).
  - destruct (append_frames_spec frames (add_velocities Frame_default) 0%Z)
      as (Ha & Hc & Hv).
    rewrite Ha, Hc, Hv. repeat split.
  - destruct (append_frames_spec frames Frame_default 0%Z) as (Ha & Hc & Hv).
    rewrite Ha, Hc, Hv. repeat split.
Qed.

(** C9. The output frame of a step has as many atoms as the current frames
    together (which is also the value of [natoms]), and it has velocities if
    and only if one of the current frames has. *)
Theorem build_output_size_velocities (frames : list Frame) :
  size (Merge.build_output frames) = list_sum (map size frames)
  /\ snd (Merge.count frames) = list_sum (map size frames)
  /\ fst (Merge.count frames) = existsb has_velocities frames
  /\ (has_velocities (Merge.build_output frames) = true
      <-> exists frame, In frame frames /\ has_velocities frame = true).
Proof.
  destruct (build_output_spec frames) as (Ha & _ & Hv).
  split; [|split; [|split]].
  - unfold size at 1. rewrite Ha. apply length_concat_atoms.
  - unfold Merge.count. now rewrite count_spec.
  - unfold Merge.count. now rewrite count_spec.
  - rewrite Hv, existsb_exists. reflexivity.
Qed.

End MergeOutput.

Section MergeBonds.

Lemma to_int_small (z : Z) : (0 <= z < 2 ^ 31)%Z -> Merge.to_int z = z.
Proof.
  intros H. unfold Merge.to_int.
  rewrite Z.mod_small; lia.
Qed.

Lemma offset_small (start x : Z) :
  (0 <= start)%Z -> (0 <= x)%Z -> (start + x < 2 ^ 31)%Z ->
  Merge.offset start x = (start + x)%Z.
Proof.
  intros Hs Hx H. unfold Merge.offset, Merge.to_size_t.
  rewrite (Z.mod_small start); [|lia].
  rewrite Z.mod_small; lia.
Qed.

Lemma offset_wide (start x : Z) :
  (0 <= start)%Z -> (0 <= x)%Z -> (start + x < 2 ^ 64)%Z ->
  Merge.offset start x = (start + x)%Z.
Proof.
  intros Hs Hx H. unfold Merge.offset, Merge.to_size_t.
  rewrite (Z.mod_small start); [|lia].
  rewrite Z.mod_small; lia.
Qed.

Lemma total_size_cons (frame : Frame) (frames : list Frame) :
  Merge.total_size (frame :: frames) = size frame + Merge.total_size frames.
Proof. reflexivity. Qed.

Lemma translate_bonds_small (n : nat) (frame : Frame) :
  Merge.bonds_in_range frame ->
  (Z.of_nat n + Z.of_nat (size frame) < 2 ^ 31)%Z ->
  map (fun bond => (Merge.offset (Z.of_nat n) (fst bond),
                    Merge.offset (Z.of_nat n) (snd bond))) (bonds frame)
  = map (Merge.translate n) (bonds frame).
Proof.
  intros R H. apply map_ext_in. intros bond I.
  destruct (R bond I) as [H1 H2]. unfold Merge.translate.
  rewrite !offset_small; try lia. reflexivity.
Qed.

(** As long as the atoms are fewer than [2 ^ 31], [start] is the number of
    atoms of the frames before, and the bonds are translated by it. *)
Lemma append_frames_bonds (frames : list Frame) (out : Frame) (n : nat) :
  Forall Merge.bonds_in_range frames ->
  (Z.of_nat n + Z.of_nat (Merge.total_size frames) < 2 ^ 31)%Z ->
  bonds (fst (fold_left Merge.append_frame frames (out, Z.of_nat n)))
  = bonds out
    ++ concat (map (fun p => map (Merge.translate (fst p)) (bonds (snd p)))
                   (combine (Merge.offsets n frames) frames)).
Proof.
  revert out n. induction frames as [|frame frames IH]; intros out n R H.
  - simpl. now rewrite app_nil_r.
  - cbn [fold_left Merge.offsets combine map concat fst snd].
    rewrite total_size_cons in H.
    inversion R as [|? ? R1 R2]; subst.
    destruct (append_frame_spec out (Z.of_nat n) frame) as (_ & Hb & _ & _ & Hs).
    destruct (Merge.append_frame (out, Z.of_nat n) frame) as [o s].
    cbn [fst snd] in Hb, Hs.
    rewrite offset_small, to_int_small in Hs; try lia.
    rewrite <- Nat2Z.inj_add in Hs. subst s.
    rewrite IH; [|exact R2|lia].
    rewrite Hb, translate_bonds_small; [|exact R1|lia].
    now rewrite <- app_assoc.
Qed.


End MergeBonds.




(** ** The merge command: the loop *)

Section MergeLoop.

Variable options : Merge.Options.t.

(** A slot holds the step read last: the last step of the input once the
    input is exhausted. *)
Lemma held_nth (fs : list Frame) (k : nat) :
  Merge.held fs (S k) = nth (Nat.min k (List.length fs - 1)) fs Frame_default.
Proof.
  induction k as [|k IH].
  - simpl. destruct fs; reflexivity.
  - change (Merge.held fs (S (S k)))
      with (if S k <? List.length fs then nth (S k) fs Frame_default
            else Merge.held fs (S k)).
    destruct (S k <? List.length fs) eqn:E.
    + apply Nat.ltb_lt in E. f_equal. lia.
    + apply Nat.ltb_ge in E. rewrite IH. f_equal. lia.
Qed.

Lemma held_last (fs : list Frame) (k : nat) :
  List.length fs <= S k -> Merge.held fs (S k) = last fs Frame_default.
Proof.
  intros H. rewrite held_nth.
  replace (Nat.min k (List.length fs - 1)) with (List.length fs - 1) by lia.
  apply nth_last.
Qed.

(** The read of one input at step [k]. *)
Lemma read_one (fs : list Frame) (k : nat) :
  (if k <? nsteps (Merge.at_step k fs)
   then do (f, t) <- read (Merge.at_step k fs); Ok (t, f, true)
   else Ok (Merge.at_step k fs, Merge.held fs k, false))
  = Ok (Merge.at_step (S k) fs, Merge.held fs (S k), k <? List.length fs).
Proof.
  unfold nsteps, Merge.at_step, read. cbn [steps cursor Merge.held].
  destruct (k <? List.length fs) eqn:E.
  - apply Nat.ltb_lt in E.
    rewrite !Nat.min_l by lia.
    rewrite (nth_error_nth' fs Frame_default E). reflexivity.
  - apply Nat.ltb_ge in E. rewrite !Nat.min_r by lia. reflexivity.
Qed.

(** The reads of step [k]: an input is read if and only if it has more than
    [k] steps, and the other slots are left as they are. *)
Lemma read_frames_step (inputs : list (list Frame)) (k : nat) :
  Merge.read_frames k (map (Merge.at_step k) inputs)
                    (map (fun fs => Merge.held fs k) inputs)
  = Ok (map (Merge.at_step (S k)) inputs, Merge.slots inputs k,
        existsb (fun fs => k <? List.length fs) inputs).
Proof.
  induction inputs as [|fs inputs IH].
  - reflexivity.
  - cbn [map Merge.read_frames]. rewrite read_one. cbn [bind].
    rewrite IH. reflexivity.
Qed.

Lemma read_some_iff (inputs : list (list Frame)) (k : nat) :
  existsb (fun fs => k <? List.length fs) inputs = (k <? Merge.max_nsteps inputs).
Proof.
  unfold Merge.max_nsteps. induction inputs as [|fs inputs IH]; simpl.
  - reflexivity.
  - rewrite IH.
    destruct (k <? List.length fs) eqn:E1;
      destruct (k <? fold_right Nat.max 0 (map (@List.length Frame) inputs)) eqn:E2;
      simpl; symmetry;
      rewrite ?Nat.ltb_lt, ?Nat.ltb_ge in *; lia.
Qed.

(** The loop from step [k] on, [n] steps being left and the fuel being
    enough. *)
Lemma loop_outcome (inputs : list (list Frame)) (n fuel k : nat)
  (outfile : OutTrajectory) :
  Merge.max_nsteps inputs = k + n -> n < fuel ->
  Merge.loop fuel options (map (Merge.at_step k) inputs)
             (map (fun fs => Merge.held fs k) inputs) outfile k
  = Some (Merge.outcome options inputs outfile k n).
Proof.
  revert fuel k outfile. induction n as [|n IH]; intros fuel k outfile M F.
  - destruct fuel as [|fuel]; [lia|].
    cbn [Merge.loop]. rewrite read_frames_step, read_some_iff.
    replace (k <? Merge.max_nsteps inputs) with false
      by (symmetry; apply Nat.ltb_ge; lia).
    reflexivity.
  - destruct fuel as [|fuel]; [lia|].
    cbn [Merge.loop Merge.outcome]. rewrite read_frames_step, read_some_iff.
    replace (k <? Merge.max_nsteps inputs) with true
      by (symmetry; apply Nat.ltb_lt; lia).
    cbn [negb].
    destruct (Merge.check_cells options (Merge.slots inputs k)) as [[]|e].
    + unfold Merge.slots at 1 2. apply IH; lia.
    + reflexivity.
Qed.

(** The run terminates, and is the run described by [outcome]. *)
Lemma run_outcome (inputs : list (list Frame)) (fuel : nat) :
  Merge.max_nsteps inputs < fuel ->
  Merge.run fuel options (map open inputs)
  = Some (Merge.outcome options inputs (Merge.initial_outfile options) 0
                        (Merge.max_nsteps inputs)).
Proof.
  intros F. unfold Merge.run.
  rewrite length_map.
  replace (repeat Frame_default (List.length inputs))
    with (map (fun fs => Merge.held fs 0) inputs).
  2:{ clear. induction inputs as [|fs inputs IH]; simpl; [reflexivity|f_equal; exact IH]. }
  replace (map open inputs) with (map (Merge.at_step 0) inputs) by reflexivity.
  replace (if Merge.Options.custom_cell options
           then set_cell (mkOutTrajectory None []) (Merge.Options.cell options)
           else mkOutTrajectory None [])
    with (Merge.initial_outfile options)
    by (unfold Merge.initial_outfile; now destruct (Merge.Options.custom_cell options)).
  apply loop_outcome; [reflexivity | exact F].
Qed.

(** What [outcome] writes: the output frames of the steps [k], [k + 1], ..., up
    to the step whose cells do not match, if there is one. *)
Lemma outcome_written (inputs : list (list Frame)) (n k : nat) (outfile : OutTrajectory) :
  exists j,
    j <= n
    /\ handle_cell (snd (Merge.outcome options inputs outfile k n)) = handle_cell outfile
    /\ written (snd (Merge.outcome options inputs outfile k n))
       = written outfile
         ++ map (fun i => Merge.build_output (Merge.slots inputs i)) (seq k j)
    /\ (forall i, k <= i < k + j ->
          Merge.check_cells options (Merge.slots inputs i) = Ok tt)
    /\ (fst (Merge.outcome options inputs outfile k n) = Ok 0%Z /\ j = n
        \/ fst (Merge.outcome options inputs outfile k n) = Err Merge.mismatch
           /\ j < n
           /\ Merge.check_cells options (Merge.slots inputs (k + j)) = Err Merge.mismatch).
Proof.
  revert k outfile. induction n as [|n IH]; intros k outfile.
  - exists 0. simpl. rewrite app_nil_r. repeat split; try lia.
    left. split; reflexivity.
  - cbn [Merge.outcome].
    destruct (Merge.check_cells options (Merge.slots inputs k)) as [[]|e] eqn:C.
    + destruct (IH (S k) (write outfile (Merge.build_output (Merge.slots inputs k))))
        as (j & Hj & Hh & Hw & Hc & Hr).
      exists (S j). split; [lia|]. split; [exact Hh|]. split.
      * rewrite Hw. simpl. now rewrite <- app_assoc.
      * split.
        -- intros i Hi. destruct (Nat.eq_dec i k) as [->|N]; [exact C|].
           apply Hc. lia.
        -- destruct Hr as [[Hr1 Hr2]|(Hr1 & Hr2 & Hr3)].
           ++ left. split; [exact Hr1|lia].
           ++ right. split; [exact Hr1|]. split; [lia|].
              replace (k + S j) with (S k + j) by lia. exact Hr3.
    + exists 0. simpl. rewrite app_nil_r, Nat.add_0_r.
      assert (E : e = Merge.mismatch).
      { unfold Merge.check_cells in C.
        destruct (negb (Merge.Options.custom_cell options)); [|discriminate].
        revert C. generalize (Merge.reference_cell (Merge.slots inputs k)).
        induction (Merge.slots inputs k) as [|f l IHl]; intros r C; simpl in C.
        - discriminate.
        - destruct (negb (Merge.is_infinite f) && negb (UnitCell.eqb (cell f) r)).
          + congruence.
          + now apply (IHl r). }
      subst e. repeat split; try lia.
      right. repeat split; try lia. exact C.
Qed.

End MergeLoop.

Section MergeFacts.

Variable options : Merge.Options.t.

Lemma reference_cell_find (frames : list Frame) :
  Merge.reference_cell frames
  = match find (fun frame => negb (Merge.is_infinite frame)) frames with
    | Some frame => cell frame
    | None => UnitCell.default
    end.
Proof.
  induction frames as [|frame frames IH]; simpl; [reflexivity|].
  now destruct (negb (Merge.is_infinite frame)).
Qed.

Lemma compare_cells_err (reference : UnitCell.t) (frames : list Frame) :
  Merge.compare_cells reference frames = Err Merge.mismatch
  <-> exists frame, In frame frames /\ Merge.is_infinite frame = false
                    /\ UnitCell.eqb (cell frame) reference = false.
Proof.
  induction frames as [|frame frames IH]; simpl.
  - split; [discriminate | intros (f & [] & _)].
  - destruct (Merge.is_infinite frame) eqn:I; simpl.
    + rewrite IH. split.
      * intros (f & Hf & H). exists f. tauto.
      * intros (f & [E|Hf] & Hi & He).
        -- subst f. congruence.
        -- exists f. tauto.
    + destruct (UnitCell.eqb (cell frame) reference) eqn:E; simpl.
      * rewrite IH. split.
        -- intros (f & Hf & H). exists f. tauto.
        -- intros (f & [E'|Hf] & Hi & He).
           ++ subst f. congruence.
           ++ exists f. tauto.
      * split; [|reflexivity]. intros _. exists frame. tauto.
Qed.

Lemma compare_cells_cases (reference : UnitCell.t) (frames : list Frame) :
  Merge.compare_cells reference frames = Ok tt
  \/ Merge.compare_cells reference frames = Err Merge.mismatch.
Proof.
  induction frames as [|frame frames IH]; simpl; [now left|].
  destruct (negb (Merge.is_infinite frame) && negb (UnitCell.eqb (cell frame) reference));
    [now right | exact IH].
Qed.

(** C3. When no cell was given on the command line, the reference cell of a
    step is the cell of the first current frame whose cell is not infinite;
    the step throws the error asking for [--cell] if and only if a current
    frame has a cell that is not infinite and differs from the reference,
    frames with an infinite cell being left out; and the run then ends with
    that error.  When a cell was given the cells are not compared. *)
Theorem check_cells_first_finite_reference (frames : list Frame) :
  (Merge.Options.custom_cell options = true ->
     Merge.check_cells options frames = Ok tt)
  /\ Merge.reference_cell frames
     = match find (fun frame => negb (Merge.is_infinite frame)) frames with
       | Some frame => cell frame
       | None => UnitCell.default
       end
  /\ (Merge.Options.custom_cell options = false ->
        (Merge.check_cells options frames
         = Err (CFilesError
             "Mismatch in unit cells. Please specify which one you want using the --cell argument.")
         <-> exists frame,
               In frame frames /\ Merge.is_infinite frame = false
               /\ UnitCell.eqb (cell frame) (Merge.reference_cell frames) = false)
        /\ (Merge.check_cells options frames = Ok tt
            <-> forall frame, In frame frames ->
                  Merge.is_infinite frame = true
                  \/ UnitCell.eqb (cell frame) (Merge.reference_cell frames) = true))
  /\ (forall inputs fuel k,
        Merge.max_nsteps inputs < fuel -> k < Merge.max_nsteps inputs ->
        frames = Merge.slots inputs k ->
        Merge.check_cells options frames = Err Merge.mismatch ->
        exists outfile,
          Merge.run fuel options (map open inputs) = Some (Err Merge.mismatch, outfile)
          /\ List.length (written outfile) <= k).
Proof.
  split; [|split; [|split]].
  - intros C. unfold Merge.check_cells. now rewrite C.
  - apply reference_cell_find.
  - intros C. unfold Merge.check_cells. rewrite C. cbn [negb].
    split; [apply compare_cells_err|].
    split.
    + intros H frame I.
      destruct (Merge.is_infinite frame) eqn:Hi; [now left|right].
      destruct (UnitCell.eqb (cell frame) (Merge.reference_cell frames)) eqn:He;
        [reflexivity|].
      assert (X : Merge.compare_cells (Merge.reference_cell frames) frames
                  = Err Merge.mismatch)
        by (apply compare_cells_err; exists frame; tauto).
      congruence.
    + intros H.
      destruct (compare_cells_cases (Merge.reference_cell frames) frames) as [O|E];
        [exact O|].
      apply compare_cells_err in E. destruct E as (frame & I & Hi & He).
      destruct (H frame I); congruence.
  - intros inputs fuel k F K -> C.
    rewrite (run_outcome options inputs fuel F).
    destruct (outcome_written options inputs (Merge.max_nsteps inputs) 0
                (Merge.initial_outfile options))
      as (j & Hj & _ & Hw & Hc & Hr).
    destruct (Merge.outcome options inputs (Merge.initial_outfile options) 0
                (Merge.max_nsteps inputs)) as [r outfile].
    cbn [fst snd] in *.
    assert (J : j <= k).
    { destruct (Nat.le_gt_cases j k) as [L|G]; [exact L|].
      rewrite (Hc k) in C by lia. discriminate. }
    destruct Hr as [[_ Hr]|(Hr & _ & _)]; [lia|].
    exists outfile. subst r. split; [reflexivity|].
    rewrite Hw, length_app, length_map, length_seq.
    unfold Merge.initial_outfile.
    destruct (Merge.Options.custom_cell options); simpl; lia.
Qed.

(** C10. Every frame handed to [write] has the cell of [Frame()], an
    infinite one, whatever the cells of the input frames are; the cell given
    on the command line, if any, is set once on the handle of the output
    file, before the loop, and the handle keeps it. *)
Theorem written_frames_keep_default_cell (inputs : list (list Frame)) (fuel : nat)
  (Hfuel : Merge.max_nsteps inputs < fuel) :
  (forall frames, cell (Merge.build_output frames) = UnitCell.default)
  /\ exists r outfile,
       Merge.run fuel options (map open inputs) = Some (r, outfile)
       /\ handle_cell outfile
          = (if Merge.Options.custom_cell options
             then Some (Merge.Options.cell options) else None)
       /\ Forall (fun frame => cell frame = UnitCell.default
                               /\ Merge.is_infinite frame = true)
                 (written outfile).
Proof.
  split; [intros frames; apply build_output_spec|].
  rewrite (run_outcome options inputs fuel Hfuel).
  destruct (outcome_written options inputs (Merge.max_nsteps inputs) 0
              (Merge.initial_outfile options))
    as (j & _ & Hh & Hw & _ & _).
  destruct (Merge.outcome options inputs (Merge.initial_outfile options) 0
              (Merge.max_nsteps inputs)) as [r outfile].
  cbn [fst snd] in *.
  exists r, outfile. split; [reflexivity|]. split.
  - rewrite Hh. unfold Merge.initial_outfile.
    now destruct (Merge.Options.custom_cell options).
  - rewrite Hw.
    replace (written (Merge.initial_outfile options)) with (@nil Frame)
      by (unfold Merge.initial_outfile;
          now destruct (Merge.Options.custom_cell options)).
    simpl. apply Forall_forall. intros frame I.
    apply in_map_iff in I. destruct I as (i & <- & _).
    destruct (build_output_spec (Merge.slots inputs i)) as (_ & Hc & _).
    unfold Merge.is_infinite. rewrite Hc. split; reflexivity.
Qed.

(** C2, amended. An input is read at step [k] if and only if it has more than
    [k] steps, and its slot is left as it is otherwise: it holds the last step
    of the input once the input is exhausted, and [Frame()] if the input has
    no step.  When no step fails the comparison of the cells, the run ends
    without error at the first step with no read, and has then written one
    frame for each step of the longest input, built from the slots. *)
Theorem merge_pads_to_longest (inputs : list (list Frame)) (fuel : nat)
  (Hfuel : Merge.max_nsteps inputs < fuel)
  (Hcells : Merge.cells_agree options inputs = true) :
  (forall k,
     Merge.read_frames k (map (Merge.at_step k) inputs)
                       (map (fun fs => Merge.held fs k) inputs)
     = Ok (map (Merge.at_step (S k)) inputs,
           map (fun fs => if k <? List.length fs then nth k fs Frame_default
                          else Merge.held fs k) inputs,
           existsb (fun fs => k <? List.length fs) inputs))
  /\ (forall k,
        existsb (fun fs => k <? List.length fs) inputs = false
        <-> Merge.max_nsteps inputs <= k)
  /\ (forall fs k, fs <> [] -> List.length fs <= S k ->
        Merge.held fs (S k) = last fs Frame_default)
  /\ (forall k, Merge.held [] k = Frame_default)
  /\ exists outfile,
       Merge.run fuel options (map open inputs) = Some (Ok 0%Z, outfile)
       /\ List.length (written outfile) = Merge.max_nsteps inputs
       /\ written outfile
          = map (fun k => Merge.build_output (map (fun fs => Merge.held fs (S k)) inputs))
                (seq 0 (Merge.max_nsteps inputs)).
Proof.
  split; [|split; [|split; [|split]]].
  - intros k. apply read_frames_step.
  - intros k. rewrite read_some_iff. apply Nat.ltb_ge.
  - intros fs k _ H. now apply held_last.
  - intros k. induction k as [|k IH]; [reflexivity|exact IH].
  - rewrite (run_outcome options inputs fuel Hfuel).
    destruct (outcome_written options inputs (Merge.max_nsteps inputs) 0
                (Merge.initial_outfile options))
      as (j & Hj & _ & Hw & _ & Hr).
    destruct (Merge.outcome options inputs (Merge.initial_outfile options) 0
                (Merge.max_nsteps inputs)) as [r outfile].
    cbn [fst snd] in *.
    replace (written (Merge.initial_outfile options)) with (@nil Frame) in Hw
      by (unfold Merge.initial_outfile;
          now destruct (Merge.Options.custom_cell options)).
    simpl in Hw.
    destruct Hr as [[Hr1 Hr2]|(_ & Hr2 & Hr3)].
    + subst r j. exists outfile. split; [reflexivity|].
      rewrite Hw, length_map, length_seq. split; reflexivity.
    + exfalso. unfold Merge.cells_agree in Hcells.
      rewrite forallb_forall in Hcells.
      assert (I : In j (seq 0 (Merge.max_nsteps inputs))) by (apply in_seq; lia).
      apply Hcells in I. simpl in Hr3. rewrite Hr3 in I. discriminate.
Qed.

End MergeFacts.

(** [A] has 3 steps and [B] has 5: the output has 5 steps, and the steps 3
    and 4 repeat the atom of the last step of [A]. *)
Lemma merge_pads_to_longest_witness :
  Merge.max_nsteps [Examples.trajectory_A; Examples.trajectory_B] < 6
  /\ Merge.cells_agree Examples.merge_plain
       [Examples.trajectory_A; Examples.trajectory_B] = true
  /\ exists outfile,
       Merge.run 6 Examples.merge_plain
                 (map open [Examples.trajectory_A; Examples.trajectory_B])
       = Some (Ok 0%Z, outfile)
       /\ List.length (written outfile) = 5
       /\ map atoms (skipn 3 (written outfile))
          = [ [Examples.atom "A" 2 0 0; Examples.atom "B" 3 0 0];
              [Examples.atom "A" 2 0 0; Examples.atom "B" 4 0 0] ].
Proof.
  assert (F : Merge.max_nsteps [Examples.trajectory_A; Examples.trajectory_B] < 6)
    by (vm_compute; lia).
  assert (C : Merge.cells_agree Examples.merge_plain
                [Examples.trajectory_A; Examples.trajectory_B] = true)
    by reflexivity.
  split; [exact F|]. split; [exact C|].
  destruct (merge_pads_to_longest Examples.merge_plain _ 6 F C)
    as (_ & _ & _ & _ & outfile & R & L & W).
  exists outfile. split; [exact R|]. split; [exact L|].
  rewrite W. reflexivity.
Defined.

(** C2 as stated fails when the cells of the inputs differ: two inputs of one
    step each, in cells of sides 10 and 20 and without [--cell], give an
    output of no step, the run ending with the error at step 0 although both
    inputs were read. *)
Lemma merge_stops_at_cell_mismatch :
  let inputs := [[Examples.in_cell 10]; [Examples.in_cell 20]] in
  Merge.max_nsteps inputs = 1
  /\ Merge.read_frames 0 (map open inputs) [Frame_default; Frame_default]
     = Ok ([mkTrajectory [Examples.in_cell 10] 1; mkTrajectory [Examples.in_cell 20] 1],
           [Examples.in_cell 10; Examples.in_cell 20], true)
  /\ Merge.run 2 Examples.merge_plain (map open inputs)
     = Some (Err Merge.mismatch, mkOutTrajectory None [])
  /\ ~ (exists r outfile,
          Merge.run 2 Examples.merge_plain (map open inputs) = Some (r, outfile)
          /\ List.length (written outfile) = Merge.max_nsteps inputs).
Proof.
  intros inputs.
  assert (R : Merge.run 2 Examples.merge_plain (map open inputs)
              = Some (Err Merge.mismatch, mkOutTrajectory None []))
    by (vm_compute; reflexivity).
  split; [reflexivity|]. split; [vm_compute; reflexivity|]. split; [exact R|].
  intros (r & outfile & E & L). rewrite R in E.
  injection E as _ <-. discriminate L.
Qed.

(** A frame without a cell, then cells of sides 10 and 20: the reference is
    the cell of side 10 and the step is refused; with [--cell] it is not. *)
Lemma check_cells_first_finite_reference_witness :
  let frames := [Examples.free; Examples.in_cell 10; Examples.in_cell 20] in
  Merge.Options.custom_cell Examples.merge_forced = true
  /\ Merge.check_cells Examples.merge_forced frames = Ok tt
  /\ Merge.reference_cell frames = UnitCell.orthorhombic 10 10 10
  /\ Merge.check_cells Examples.merge_plain frames = Err Merge.mismatch
  /\ Merge.check_cells Examples.merge_plain
       [Examples.free; Examples.in_cell 10; Examples.in_cell 10] = Ok tt.
Proof.
  intros frames.
  split; [reflexivity|]. split.
  - apply (proj1 (check_cells_first_finite_reference Examples.merge_forced frames)).
    reflexivity.
  - repeat split; reflexivity.
Defined.

(** An input in a cell of side 10 merged with [--cell=30]: the frame written
    has no cell, and the handle has the cell of side 30. *)
Lemma written_frames_keep_default_cell_witness :
  Merge.max_nsteps [[Examples.in_cell 10]] < 2
  /\ exists r outfile,
       Merge.run 2 Examples.merge_forced (map open [[Examples.in_cell 10]])
       = Some (r, outfile)
       /\ handle_cell outfile = Some (UnitCell.orthorhombic 30 30 30)
       /\ Forall (fun frame => cell frame = UnitCell.default
                               /\ Merge.is_infinite frame = true)
                 (written outfile).
Proof.
  assert (F : Merge.max_nsteps [[Examples.in_cell 10]] < 2) by (vm_compute; lia).
  split; [exact F|].
  exact (proj2 (written_frames_keep_default_cell Examples.merge_forced
                  [[Examples.in_cell 10]] 2 F)).
Defined.

(** ** The convert loop *)

Section ConvertFacts.

Variable cell_wrap : UnitCell.t -> Vector3D -> Vector3D.
Variable guess_topology : Frame -> Frame.

(** Assigning the copy of an element leaves the container as it was. *)
Lemma for_auto_keeps {A : Type} (body : A -> A) (container : list A) :
  HBonds.for_auto body container = container.
Proof.
  unfold HBonds.for_auto.
  assert (H : forall l kept : list A,
            fold_left (fun kept x => let x := body x in kept) l kept = kept).
  { induction l as [|x l IH]; intros kept; simpl; [reflexivity|apply IH]. }
  apply H.
Qed.

Lemma with_positions_same (frame : Frame) :
  HBonds.with_positions frame (positions frame) = frame.
Proof.
  destruct frame as [ats vs bs c]. unfold HBonds.with_positions, topology, positions.
  simpl. f_equal. induction ats as [|[x p] ats IH]; simpl; [reflexivity|].
  now rewrite IH.
Qed.

(** The frame written is the frame read, with its bonds guessed if asked for:
    [--wrap] changes nothing. *)
Lemma process_ignores_wrap (options : HBonds.Options) (frame : Frame) :
  HBonds.process cell_wrap guess_topology options frame
  = if HBonds.guess_bonds options then guess_topology frame else frame.
Proof.
  unfold HBonds.process. destruct (HBonds.wrap options); [|reflexivity].
  rewrite for_auto_keeps. apply with_positions_same.
Qed.

Lemma convert_steps_written (options : HBonds.Options) (fs : list Frame) (k n : nat)
  (outfile : OutTrajectory) :
  k + n = List.length fs ->
  HBonds.convert_steps cell_wrap guess_topology n options (mkTrajectory fs k) outfile
  = (Ok 0%Z,
     mkOutTrajectory (handle_cell outfile)
       (written outfile
        ++ map (fun frame => if HBonds.guess_bonds options then guess_topology frame
                             else frame) (skipn k fs))).
Proof.
  revert k outfile. induction n as [|n IH]; intros k outfile H.
  - simpl. rewrite skipn_all2 by lia. simpl. rewrite app_nil_r.
    now destruct outfile.
  - cbn [HBonds.convert_steps]. unfold read. cbn [steps cursor].
    destruct (nth_error fs k) as [frame|] eqn:E.
    2:{ apply nth_error_None in E. lia. }
    rewrite IH by lia. rewrite process_ignores_wrap.
    unfold write. cbn [handle_cell written]. f_equal. f_equal.
    rewrite <- app_assoc. f_equal.
    clear - E. revert k E. induction fs as [|f fs IHfs]; intros k E.
    + destruct k; discriminate.
    + destruct k as [|k]; simpl in *.
      * now injection E as ->.
      * now apply IHfs.
Qed.

(** The whole loop writes the frames read, never wrapped. *)
Lemma convert_all_writes_frames_read (options : HBonds.Options) (fs : list Frame)
  (outfile : OutTrajectory) :
  HBonds.convert_all cell_wrap guess_topology options (open fs) outfile
  = (Ok 0%Z,
     mkOutTrajectory (handle_cell outfile)
       (written outfile
        ++ map (fun frame => if HBonds.guess_bonds options then guess_topology frame
                             else frame) fs)).
Proof.
  unfold HBonds.convert_all, open, nsteps. cbn [steps].
  now rewrite (convert_steps_written options fs 0 (List.length fs) outfile).
Qed.

End ConvertFacts.

(** The loop of lines 136 to 143 on the frame [outside], which has one atom
    at (15, 0, 0) in a cubic cell of side 10: the wrapped position is
    (-5, 0, 0), and the loop, which assigns it to a copy of the position,
    leaves the atom at (15, 0, 0). *)
Lemma wrap_loop_assigns_copies :
  positions Examples.outside = [(15, 0, 0)%Q]
  /\ Chemfiles.wrap (cell Examples.outside) (15, 0, 0)%Q = ((-5)%Q, 0%Q, 0%Q)
  /\ positions (HBonds.process Chemfiles.wrap Chemfiles.guess_topology
                  Examples.convert_wrap Examples.outside) = [(15, 0, 0)%Q]
  /\ positions (HBonds.process_documented Chemfiles.wrap Chemfiles.guess_topology
                  Examples.convert_wrap Examples.outside) = [((-5)%Q, 0%Q, 0%Q)].
Proof.
  repeat split; vm_compute; reflexivity.
Qed.


(** * Further properties *)

(** ** The merge command: how a run ends *)

Section MergeRuns.

Variable options : Merge.Options.t.

Lemma initial_outfile_written :
  written (Merge.initial_outfile options) = [].
Proof.
  unfold Merge.initial_outfile. now destruct (Merge.Options.custom_cell options).
Qed.

(** X2. When the cells of the steps before [k] agree and those of step [k] do
    not, the run ends with the error on the cells and the output file holds
    the output frames of the steps 0 to [k - 1], and nothing of step [k]. *)
Theorem run_keeps_steps_before_mismatch (inputs : list (list Frame)) (fuel k : nat)
  (Hfuel : Merge.max_nsteps inputs < fuel)
  (Hk : k < Merge.max_nsteps inputs)
  (Hbefore : forall j, j < k ->
     Merge.check_cells options (Merge.slots inputs j) = Ok tt)
  (Hstep : Merge.check_cells options (Merge.slots inputs k) = Err Merge.mismatch) :
  Merge.run fuel options (map open inputs)
  = Some (Err Merge.mismatch,
          mkOutTrajectory
            (handle_cell (Merge.initial_outfile options))
            (map (fun i => Merge.build_output (Merge.slots inputs i)) (seq 0 k))).
Proof.
  rewrite (run_outcome options inputs fuel Hfuel).
  destruct (outcome_written options inputs (Merge.max_nsteps inputs) 0
              (Merge.initial_outfile options))
    as (j & Hj & Hh & Hw & Hc & Hr).
  destruct (Merge.outcome options inputs (Merge.initial_outfile options) 0
              (Merge.max_nsteps inputs)) as [r [hc ws]].
  cbn [fst snd handle_cell written] in *.
  rewrite initial_outfile_written in Hw. simpl in Hw.
  assert (J : j = k).
  { destruct (Nat.lt_trichotomy j k) as [L|[E|G]]; [|exact E|].
    - destruct Hr as [[_ Hr]|(_ & _ & Hr)]; [lia|].
      simpl in Hr. rewrite (Hbefore j L) in Hr. discriminate.
    - rewrite (Hc k) in Hstep by lia. discriminate. }
  subst j. destruct Hr as [[_ Hr]|(-> & _ & _)]; [lia|].
  now rewrite Hh, Hw.
Qed.

Lemma held_infinite (fs : list Frame) (k : nat) :
  Forall (fun frame => Merge.is_infinite frame = true) fs ->
  Merge.is_infinite (Merge.held fs k) = true.
Proof.
  intros H. induction k as [|k IH]; [reflexivity|].
  cbn [Merge.held]. destruct (k <? List.length fs) eqn:E; [|exact IH].
  apply Nat.ltb_lt in E. rewrite Forall_forall in H. apply H. now apply nth_In.
Qed.

Lemma compare_cells_infinite (reference : UnitCell.t) (frames : list Frame) :
  Forall (fun frame => Merge.is_infinite frame = true) frames ->
  Merge.compare_cells reference frames = Ok tt.
Proof.
  induction 1 as [|frame frames H _ IH]; simpl; [reflexivity|].
  now rewrite H.
Qed.

End MergeRuns.

(** Two inputs of two steps whose cells agree at step 0 and differ at
    step 1: the output holds the frame of step 0. *)
Lemma run_keeps_steps_before_mismatch_witness :
  let inputs := [[Examples.in_cell 10; Examples.in_cell 10];
                 [Examples.in_cell 10; Examples.in_cell 20]] in
  exists outfile,
    Merge.run 3 Examples.merge_plain (map open inputs)
    = Some (Err Merge.mismatch, outfile)
    /\ List.length (written outfile) = 1.
Proof.
  intros inputs.
  assert (F : Merge.max_nsteps inputs < 3) by (vm_compute; lia).
  assert (K : 1 < Merge.max_nsteps inputs) by (vm_compute; lia).
  assert (B : forall j, j < 1 ->
            Merge.check_cells Examples.merge_plain (Merge.slots inputs j) = Ok tt).
  { intros j L. destruct j as [|j]; [reflexivity|lia]. }
  assert (S1 : Merge.check_cells Examples.merge_plain (Merge.slots inputs 1)
               = Err Merge.mismatch) by reflexivity.
  eexists. split.
  - exact (run_keeps_steps_before_mismatch Examples.merge_plain inputs 3 1 F K B S1).
  - reflexivity.
Defined.

(** ** The merge command: the comparison of the cells *)

Section MergeCells.

Variable options : Merge.Options.t.

Lemma shape_eqb_eq (s t : CellShape) : shape_eqb s t = true <-> s = t.
Proof. destruct s, t; simpl; split; congruence. Qed.

Lemma cell_eqb_refl (x : UnitCell.t) : UnitCell.eqb x x = true.
Proof.
  unfold UnitCell.eqb. rewrite !Qeq_bool_refl.
  now rewrite (proj2 (shape_eqb_eq _ _) eq_refl).
Qed.

Lemma cell_eqb_sym (x y : UnitCell.t) :
  UnitCell.eqb x y = true -> UnitCell.eqb y x = true.
Proof.
  unfold UnitCell.eqb. rewrite !andb_true_iff.
  intros [[[[[[S A] B] C] D] E] F].
  apply shape_eqb_eq in S. rewrite S.
  rewrite (proj2 (shape_eqb_eq _ _) eq_refl).
  repeat split; now apply Qeq_bool_sym.
Qed.

Lemma cell_eqb_trans (x y z : UnitCell.t) :
  UnitCell.eqb x y = true -> UnitCell.eqb y z = true -> UnitCell.eqb x z = true.
Proof.
  unfold UnitCell.eqb. rewrite !andb_true_iff.
  intros [[[[[[S A] B] C] D] E] F] [[[[[[S' A'] B'] C'] D'] E'] F'].
  apply shape_eqb_eq in S, S'. rewrite S, S'.
  rewrite (proj2 (shape_eqb_eq _ _) eq_refl).
  repeat split; eapply Qeq_bool_trans; eassumption.
Qed.

(** The reference is the cell of a current frame that has one, when there is
    such a frame. *)
Lemma reference_cell_of_frame (frames : list Frame) (f : Frame) :
  In f frames -> Merge.is_infinite f = false ->
  exists f0, In f0 frames /\ Merge.is_infinite f0 = false
             /\ Merge.reference_cell frames = cell f0.
Proof.
  intros I Hf. rewrite reference_cell_find.
  destruct (find (fun frame => negb (Merge.is_infinite frame)) frames) as [f0|] eqn:E.
  - apply find_some in E. destruct E as [I0 H0].
    exists f0. apply negb_true_iff in H0. tauto.
  - apply (find_none _ _ E) in I. rewrite Hf in I. discriminate.
Qed.

Lemma compare_cells_pairwise (frames : list Frame) :
  Merge.compare_cells (Merge.reference_cell frames) frames = Ok tt
  <-> Merge.cells_pairwise_equal frames.
Proof.
  split.
  - intros O f g If Ig Hf Hg.
    assert (R : forall x, In x frames -> Merge.is_infinite x = false ->
                UnitCell.eqb (cell x) (Merge.reference_cell frames) = true).
    { intros x Ix Hx.
      destruct (UnitCell.eqb (cell x) (Merge.reference_cell frames)) eqn:E;
        [reflexivity|].
      assert (X : Merge.compare_cells (Merge.reference_cell frames) frames
                  = Err Merge.mismatch)
        by (apply compare_cells_err; exists x; tauto).
      congruence. }
    eapply cell_eqb_trans; [apply (R f If Hf)|].
    apply cell_eqb_sym. apply (R g Ig Hg).
  - intros P.
    destruct (compare_cells_cases (Merge.reference_cell frames) frames) as [O|E];
      [exact O|].
    apply compare_cells_err in E. destruct E as (f & If & Hf & He).
    destruct (reference_cell_of_frame frames f If Hf) as (f0 & I0 & H0 & R).
    rewrite R in He. rewrite (P f f0 If I0 Hf H0) in He. discriminate.
Qed.

(** X4. Without [--cell], a step passes the comparison exactly when any two
    current frames that have a cell have equal cells (all the cells are the
    same, or some frames have the same cell and the others have none); so the
    outcome of the comparison does not depend on the order of the inputs,
    although the reference is taken from the first one that has a cell. *)
Theorem check_cells_pairwise_any_order (frames : list Frame) :
  (Merge.Options.custom_cell options = false ->
     (Merge.check_cells options frames = Ok tt <->
        forall f g, In f frames -> In g frames ->
          Merge.is_infinite f = false -> Merge.is_infinite g = false ->
          UnitCell.eqb (cell f) (cell g) = true))
  /\ (forall frames', Permutation frames frames' ->
        Merge.check_cells options frames' = Merge.check_cells options frames).
Proof.
  split.
  - intros C. unfold Merge.check_cells. rewrite C. cbn [negb].
    apply compare_cells_pairwise.
  - intros frames' P. unfold Merge.check_cells.
    destruct (negb (Merge.Options.custom_cell options)); [|reflexivity].
    assert (E : Merge.cells_pairwise_equal frames <-> Merge.cells_pairwise_equal frames').
    { unfold Merge.cells_pairwise_equal. split; intros H f g If Ig; apply H.
      - now apply (Permutation_in _ (Permutation_sym P)).
      - now apply (Permutation_in _ (Permutation_sym P)).
      - now apply (Permutation_in _ P).
      - now apply (Permutation_in _ P). }
    rewrite <- !compare_cells_pairwise in E.
    destruct (compare_cells_cases (Merge.reference_cell frames) frames) as [O|X],
             (compare_cells_cases (Merge.reference_cell frames') frames') as [O'|X'];
      try congruence.
    + apply E in O. congruence.
    + apply E in O'. congruence.
Qed.

End MergeCells.

(** The cells of sides 10 and 20 disagree whichever comes first, and a frame
    without a cell between two frames in the same cell is accepted. *)
Lemma check_cells_pairwise_any_order_witness :
  Merge.Options.custom_cell Examples.merge_plain = false
  /\ Permutation [Examples.in_cell 10; Examples.free; Examples.in_cell 20]
                 [Examples.in_cell 20; Examples.in_cell 10; Examples.free]
  /\ Merge.check_cells Examples.merge_plain
       [Examples.in_cell 20; Examples.in_cell 10; Examples.free]
     = Merge.check_cells Examples.merge_plain
         [Examples.in_cell 10; Examples.free; Examples.in_cell 20]
  /\ Merge.check_cells Examples.merge_plain
       [Examples.in_cell 10; Examples.free; Examples.in_cell 10] = Ok tt.
Proof.
  assert (P : Permutation [Examples.in_cell 10; Examples.free; Examples.in_cell 20]
                          [Examples.in_cell 20; Examples.in_cell 10; Examples.free]).
  { apply Permutation_sym. apply (Permutation_cons_app [_; _] [] _).
    apply Permutation_refl. }
  split; [reflexivity|]. split; [exact P|]. split.
  - exact (proj2 (check_cells_pairwise_any_order Examples.merge_plain _) _ P).
  - reflexivity.
Defined.

(** ** The merge command: bonds and velocities of the output frame *)

Section MergeFrames.

Lemma build_output_bonds (frames : list Frame) :
  Forall Merge.bonds_in_range frames ->
  (Z.of_nat (Merge.total_size frames) < 2 ^ 31)%Z ->
  bonds (Merge.build_output frames) = Merge.translated_bonds frames.
Proof.
  intros R H. unfold Merge.build_output, Merge.count. rewrite count_spec. simpl.
  unfold Merge.translated_bonds.
  destruct (existsb has_velocities frames).
  - pose proof (append_frames_bonds frames (add_velocities Frame_default) 0 R) as B.
    simpl in B. apply B. lia.
  - pose proof (append_frames_bonds frames Frame_default 0 R) as B.
    simpl in B. apply B. lia.
Qed.

Lemma build_output_size (frames : list Frame) :
  size (Merge.build_output frames) = Merge.total_size frames.
Proof.
  unfold size. rewrite (proj1 (build_output_spec frames)).
  apply length_concat_atoms.
Qed.

Lemma in_offsets (frames : list Frame) (n start : nat) (frame : Frame) :
  In (start, frame) (combine (Merge.offsets n frames) frames) ->
  n <= start /\ start + size frame <= n + Merge.total_size frames.
Proof.
  revert n. induction frames as [|f frames IH]; intros n I; simpl in I.
  - contradiction.
  - rewrite total_size_cons. destruct I as [E|I].
    + injection E as <- <-. lia.
    + apply IH in I. lia.
Qed.

(** X5. When the bonds of every current frame join atoms of that frame, the
    bonds of the output frame join atoms of the output frame: the translation
    keeps every bond inside the atoms of its own input. *)
Theorem build_output_bonds_in_range (frames : list Frame)
  (Hrange : Forall Merge.bonds_in_range frames)
  (Hint : (Z.of_nat (Merge.total_size frames) < 2 ^ 31)%Z) :
  Merge.bonds_in_range (Merge.build_output frames)
  /\ List.length (bonds (Merge.build_output frames))
     = list_sum (map (fun frame => List.length (bonds frame)) frames).
Proof.
  split.
  - intros bond I. rewrite build_output_size.
    rewrite (build_output_bonds frames Hrange Hint) in I.
    unfold Merge.translated_bonds in I. apply in_concat in I.
    destruct I as (l & Hl & I). apply in_map_iff in Hl.
    destruct Hl as ([start frame] & <- & Hp). simpl in I.
    apply in_map_iff in I. destruct I as (b0 & <- & Ib).
    pose proof (in_offsets frames 0 start frame Hp) as [_ Ho].
    apply in_combine_r in Hp. rewrite Forall_forall in Hrange.
    destruct (Hrange frame Hp b0 Ib) as [H1 H2].
    unfold Merge.translate. simpl. lia.
  - rewrite (build_output_bonds frames Hrange Hint).
    unfold Merge.translated_bonds. generalize 0 at 1.
    clear. induction frames as [|f frames IH]; intros n; simpl; [reflexivity|].
    now rewrite length_app, length_map, IH.
Qed.

Lemma add_atoms_velocities (l : list (Atom * Vector3D)) (out : Frame) :
  velocities (fold_left (fun out atom => add_atom out (fst atom) (snd atom)) l out)
  = option_map (fun vs => vs ++ repeat vzero (List.length l)) (velocities out).
Proof.
  revert out. induction l as [|[x p] l IH]; intros out; simpl.
  - destruct (velocities out); simpl; [now rewrite app_nil_r|reflexivity].
  - rewrite IH. simpl. destruct (velocities out); simpl; [|reflexivity].
    now rewrite <- app_assoc.
Qed.

Lemma add_bonds_velocities (start : Z) (l : list Bond) (out : Frame) :
  velocities
    (fold_left (fun out bond =>
       add_bond out (Merge.offset start (fst bond)) (Merge.offset start (snd bond)))
       l out)
  = velocities out.
Proof.
  revert out. induction l as [|bond l IH]; intros out; simpl; [reflexivity|].
  now rewrite IH.
Qed.

Lemma set_velocities_fold (f : nat -> Z) (g : nat -> Vector3D) (idx : list nat)
  (out : Frame) :
  velocities (fold_left (fun out i => Merge.set_velocity out (f i) (g i)) idx out)
  = option_map
      (fun vs => fold_left (fun vs i => set_nth (Z.to_nat (f i)) (g i) vs) idx vs)
      (velocities out).
Proof.
  revert out. induction idx as [|i idx IH]; intros out; simpl.
  - now destruct (velocities out).
  - rewrite IH. simpl. now destruct (velocities out).
Qed.

Lemma set_nth_app {A : Type} (pre : list A) (x z : A) (zs : list A) :
  set_nth (List.length pre) x (pre ++ z :: zs) = pre ++ x :: zs.
Proof.
  induction pre as [|p pre IH]; simpl; [reflexivity|]. now rewrite IH.
Qed.

Lemma fold_left_ext_in {A C : Type} (f g : C -> A -> C) (l : list A) (init : C) :
  (forall acc x, In x l -> f acc x = g acc x) ->
  fold_left f l init = fold_left g l init.
Proof.
  revert init. induction l as [|x l IH]; intros init E; simpl; [reflexivity|].
  rewrite E by now left. apply IH. intros acc y I. apply E. now right.
Qed.

(** Writing the entries [b + s], [b + s + 1], ... one after the other fills
    the end of the vector. *)
Lemma fold_set_nth {A : Type} (g : nat -> A) (b : nat) (zs pre : list A) (s : nat) :
  List.length pre = b + s ->
  fold_left (fun l i => set_nth (b + i) (g i) l) (seq s (List.length zs)) (pre ++ zs)
  = pre ++ map g (seq s (List.length zs)).
Proof.
  revert pre s. induction zs as [|z zs IH]; intros pre s L; simpl.
  - reflexivity.
  - rewrite <- L, set_nth_app.
    change (pre ++ g s :: zs) with (pre ++ [g s] ++ zs).
    rewrite app_assoc, IH by (rewrite length_app; simpl; lia).
    now rewrite <- app_assoc.
Qed.

Lemma map_nth_seq {A : Type} (l : list A) (d : A) :
  map (fun i => nth i l d) (seq 0 (List.length l)) = l.
Proof.
  induction l as [|x l IH]; simpl; [reflexivity|].
  f_equal. rewrite <- seq_shift, map_map. exact IH.
Qed.

(** The velocities after one input frame is added. *)
Lemma append_frame_velocities (out : Frame) (ov : list Vector3D) (frame : Frame) :
  velocities out = Some ov ->
  List.length ov = size out ->
  Merge.velocities_sized frame ->
  (Z.of_nat (size out) + Z.of_nat (size frame) < 2 ^ 64)%Z ->
  velocities (fst (Merge.append_frame (out, Z.of_nat (size out)) frame))
  = Some (ov ++ Merge.velocities_or_zero frame).
Proof.
  intros Hov Hlen Hsized Hint. unfold Merge.append_frame. cbn [fst].
  rewrite add_bonds_velocities. unfold Merge.velocities_or_zero.
  destruct (velocities frame) as [vs|] eqn:Hvs.
  - specialize (Hsized vs Hvs).
    rewrite set_velocities_fold, add_atoms_velocities, Hov. cbn [option_map].
    f_equal. change (List.length (atoms frame)) with (size frame).
    rewrite (fold_left_ext_in _
               (fun l i => set_nth (size out + i) (nth i vs vzero) l)).
    2:{ intros acc i I. apply in_seq in I. f_equal.
        rewrite offset_wide by lia. lia. }
    pose proof (fold_set_nth (fun i => nth i vs vzero) (size out)
                  (repeat vzero (size frame)) ov 0) as F.
    rewrite repeat_length in F. rewrite F by lia.
    now rewrite <- Hsized, map_nth_seq.
  - rewrite add_atoms_velocities, Hov. reflexivity.
Qed.

Lemma append_frames_velocities (frames : list Frame) (out : Frame)
  (ov : list Vector3D) :
  velocities out = Some ov ->
  List.length ov = size out ->
  Forall Merge.velocities_sized frames ->
  (Z.of_nat (size out) + Z.of_nat (Merge.total_size frames) < 2 ^ 31)%Z ->
  velocities (fst (fold_left Merge.append_frame frames (out, Z.of_nat (size out))))
  = Some (ov ++ concat (map Merge.velocities_or_zero frames)).
Proof.
  revert out ov. induction frames as [|frame frames IH]; intros out ov Hov Hlen Hs Hint.
  - simpl. now rewrite app_nil_r.
  - cbn [fold_left map concat]. rewrite total_size_cons in Hint.
    inversion Hs as [|? ? S1 S2]; subst.
    pose proof (append_frame_velocities out ov frame Hov Hlen S1) as V.
    destruct (append_frame_spec out (Z.of_nat (size out)) frame)
      as (Ha & _ & _ & _ & Hstart).
    destruct (Merge.append_frame (out, Z.of_nat (size out)) frame) as [o s].
    cbn [fst snd] in *.
    assert (So : size o = size out + size frame)
      by (unfold size; now rewrite Ha, length_app).
    rewrite offset_small, to_int_small in Hstart by lia.
    rewrite <- Nat2Z.inj_add, <- So in Hstart. subst s.
    rewrite (IH o (ov ++ Merge.velocities_or_zero frame)).
    + now rewrite <- app_assoc.
    + apply V. lia.
    + rewrite length_app, Hlen, So. f_equal.
      unfold Merge.velocities_or_zero.
      destruct (velocities frame) as [vs|] eqn:E; [now apply S1|apply repeat_length].
    + exact S2.
    + lia.
Qed.

Lemma append_frames_no_velocities (frames : list Frame) (out : Frame) (start : Z) :
  velocities out = None ->
  velocities (fst (fold_left Merge.append_frame frames (out, start))) = None.
Proof.
  revert out start. induction frames as [|frame frames IH]; intros out start H.
  - exact H.
  - cbn [fold_left].
    destruct (append_frame_spec out start frame) as (_ & _ & _ & Hv & _).
    destruct (Merge.append_frame (out, start) frame) as [o s]. cbn [fst] in Hv.
    apply IH. unfold has_velocities in Hv. rewrite H in Hv.
    now destruct (velocities o).
Qed.

Lemma build_output_velocities_concat (frames : list Frame) :
  Forall Merge.velocities_sized frames ->
  (Z.of_nat (Merge.total_size frames) < 2 ^ 31)%Z ->
  velocities (Merge.build_output frames)
  = if existsb has_velocities frames
    then Some (concat (map Merge.velocities_or_zero frames))
    else None.
Proof.
  intros Hsized Hint.
  unfold Merge.build_output, Merge.count. rewrite count_spec. simpl.
  destruct (existsb has_velocities frames).
  - pose proof (append_frames_velocities frames (add_velocities Frame_default) []
                  eq_refl eq_refl Hsized) as V.
    simpl in V. apply V. lia.
  - now apply append_frames_no_velocities.
Qed.

Lemma velocities_or_zero_length (frames : list Frame) :
  Forall Merge.velocities_sized frames ->
  List.length (concat (map Merge.velocities_or_zero frames)) = Merge.total_size frames.
Proof.
  induction 1 as [|frame frames S _ IH]; [reflexivity|].
  cbn [map concat]. rewrite length_app, IH, total_size_cons. f_equal.
  unfold Merge.velocities_or_zero.
  destruct (velocities frame) as [vs|] eqn:E; [now apply S|apply repeat_length].
Qed.

(** X6. When one of the current frames has velocities, the velocities of the
    output frame are those of the current frames in the order of the inputs,
    with a zero velocity for each atom of a frame that has none, so that the
    output frame has one velocity for each of its atoms; otherwise the output
    frame has no velocities. *)
Theorem build_output_velocities (frames : list Frame)
  (Hsized : Forall Merge.velocities_sized frames)
  (Hint : (Z.of_nat (Merge.total_size frames) < 2 ^ 31)%Z) :
  velocities (Merge.build_output frames)
  = (if existsb has_velocities frames
     then Some (concat (map Merge.velocities_or_zero frames))
     else None)
  /\ Merge.velocities_sized (Merge.build_output frames).
Proof.
  pose proof (build_output_velocities_concat frames Hsized Hint) as V.
  split; [exact V|].
  intros vs E. rewrite V in E.
  destruct (existsb has_velocities frames); [|discriminate].
  injection E as <-. rewrite build_output_size.
  now apply velocities_or_zero_length.
Qed.

End MergeFrames.

(** Two atoms without velocities and three atoms with velocities. *)
Lemma build_output_velocities_witness :
  Forall Merge.velocities_sized [Examples.pair_bonded; Examples.triple_bonded]
  /\ velocities (Merge.build_output [Examples.pair_bonded; Examples.triple_bonded])
     = Some [(0, 0, 0); (0, 0, 0); (1, 0, 0); (0, 1, 0); (0, 0, 1)]%Q.
Proof.
  assert (S : Forall Merge.velocities_sized [Examples.pair_bonded; Examples.triple_bonded]).
  { apply Forall_cons; [|apply Forall_cons; [|apply Forall_nil]]; intros vs E.
    - discriminate E.
    - injection E as <-. reflexivity. }
  split; [exact S|].
  assert (I : (Z.of_nat (Merge.total_size [Examples.pair_bonded; Examples.triple_bonded])
               < 2 ^ 31)%Z) by (vm_compute; reflexivity).
  rewrite (proj1 (build_output_velocities _ S I)). reflexivity.
Defined.

Lemma build_output_bonds_in_range_witness :
  Forall Merge.bonds_in_range [Examples.pair_bonded; Examples.triple_bonded]
  /\ Merge.bonds_in_range (Merge.build_output [Examples.pair_bonded; Examples.triple_bonded]).
Proof.
  assert (R : Forall Merge.bonds_in_range [Examples.pair_bonded; Examples.triple_bonded]).
  { apply Forall_cons; [|apply Forall_cons; [|apply Forall_nil]];
      intros bond [E|[]]; subst bond; simpl; lia. }
  split; [exact R|].
  apply (build_output_bonds_in_range _ R). vm_compute; reflexivity.
Defined.

(** ** The merge command: one input, the limit of [start], the options *)

Section MergeSingle.

Variable options : Merge.Options.t.

(** When no step fails the comparison of the cells, the run writes every
    step. *)
Lemma run_when_cells_agree (inputs : list (list Frame)) (fuel : nat) :
  Merge.max_nsteps inputs < fuel ->
  (forall k, Merge.check_cells options (Merge.slots inputs k) = Ok tt) ->
  Merge.run fuel options (map open inputs)
  = Some (Ok 0%Z,
          mkOutTrajectory
            (handle_cell (Merge.initial_outfile options))
            (map (fun k => Merge.build_output (Merge.slots inputs k))
                 (seq 0 (Merge.max_nsteps inputs)))).
Proof.
  intros F C. rewrite (run_outcome options inputs fuel F).
  destruct (outcome_written options inputs (Merge.max_nsteps inputs) 0
              (Merge.initial_outfile options))
    as (j & Hj & Hh & Hw & _ & Hr).
  destruct (Merge.outcome options inputs (Merge.initial_outfile options) 0
              (Merge.max_nsteps inputs)) as [r [hc ws]].
  cbn [fst snd handle_cell written] in *.
  rewrite initial_outfile_written in Hw. simpl in Hw.
  destruct Hr as [[-> ->]|(_ & _ & Hr)].
  - now rewrite Hh, Hw.
  - simpl in Hr. rewrite C in Hr. discriminate.
Qed.

Lemma check_cells_single (frame : Frame) :
  Merge.check_cells options [frame] = Ok tt.
Proof.
  unfold Merge.check_cells.
  destruct (negb (Merge.Options.custom_cell options)); [|reflexivity].
  simpl. destruct (Merge.is_infinite frame); simpl; [reflexivity|].
  now rewrite cell_eqb_refl.
Qed.

Lemma translate_0 (l : list Bond) : map (Merge.translate 0) l = l.
Proof.
  induction l as [|[x y] l IH]; simpl; [reflexivity|].
  now rewrite IH.
Qed.

Lemma build_output_single (frame : Frame) :
  Merge.well_formed frame ->
  (Z.of_nat (size frame) < 2 ^ 64)%Z ->
  Merge.build_output [frame] = Merge.strip_cell frame.
Proof.
  intros [R S] I. unfold Merge.build_output, Merge.count. rewrite count_spec.
  cbn [existsb orb fold_left]. rewrite orb_false_r.
  set (out0 := if has_velocities frame then add_velocities Frame_default
               else Frame_default).
  assert (V : velocities (fst (Merge.append_frame (out0, 0%Z) frame))
              = velocities frame).
  { subst out0. unfold has_velocities. destruct (velocities frame) as [vs|] eqn:E.
    - pose proof (append_frame_velocities (add_velocities Frame_default) [] frame
                    eq_refl eq_refl S) as H.
      unfold Merge.velocities_or_zero in H. rewrite E in H.
      apply H. simpl. lia.
    - apply (append_frames_no_velocities [frame] Frame_default 0%Z eq_refl). }
  destruct (append_frame_spec out0 0%Z frame) as (A & B & C & _ & _).
  assert (A0 : atoms out0 = []) by (subst out0; now destruct (has_velocities frame)).
  assert (B0 : bonds out0 = []) by (subst out0; now destruct (has_velocities frame)).
  assert (C0 : cell out0 = UnitCell.default)
    by (subst out0; now destruct (has_velocities frame)).
  rewrite A0 in A. rewrite B0 in B. rewrite C0 in C. cbn [app] in A, B.
  assert (B' : map (fun bond => (Merge.offset 0 (fst bond), Merge.offset 0 (snd bond)))
                   (bonds frame) = bonds frame).
  { rewrite <- (map_id (bonds frame)) at 2. apply map_ext_in. intros [x y] Ib.
    destruct (R (x, y) Ib) as [H1 H2]. cbn [fst snd] in *.
    rewrite !offset_wide by lia. reflexivity. }
  rewrite B' in B.
  destruct (fst (Merge.append_frame (out0, 0%Z) frame)) as [ats vs bs c].
  cbn [atoms velocities bonds cell] in *. subst. reflexivity.
Qed.

(** X7. Merging a single trajectory copies it: the comparison of the cells
    passes at every step whatever the cells of the frames are, the run
    returns 0, and the output holds, for each step of the input and in the
    same order, a frame with the atoms, the velocities and the bonds of that
    step, but with no cell. *)
Theorem run_single_input_copies_frames (fs : list Frame) (fuel : nat)
  (Hfuel : List.length fs < fuel)
  (Hframes : Forall (fun frame =>
               Merge.well_formed frame /\ (Z.of_nat (size frame) < 2 ^ 64)%Z) fs) :
  (forall frame, Merge.check_cells options [frame] = Ok tt)
  /\ Merge.run fuel options [open fs]
     = Some (Ok 0%Z,
             mkOutTrajectory (handle_cell (Merge.initial_outfile options))
                             (map Merge.strip_cell fs)).
Proof.
  split; [apply check_cells_single|].
  assert (M : Merge.max_nsteps [fs] = List.length fs)
    by (unfold Merge.max_nsteps; simpl; lia).
  change [open fs] with (map open [fs]).
  rewrite (run_when_cells_agree [fs] fuel).
  - rewrite M. do 3 f_equal.
    rewrite <- (map_nth_seq fs Frame_default) at 2. rewrite map_map.
    apply map_ext_in. intros k I. apply in_seq in I.
    unfold Merge.slots. cbn [map]. rewrite held_nth.
    replace (Nat.min k (List.length fs - 1)) with k by lia.
    rewrite Forall_forall in Hframes.
    destruct (Hframes (nth k fs Frame_default)) as (W & B);
      [apply nth_In; lia|].
    now apply build_output_single.
  - lia.
  - intros k. apply check_cells_single.
Qed.

(** X8. [start] is an [int]: when the atoms counted so far reach [2 ^ 31],
    [start] becomes negative after [start += frame.size()], and the index
    computed for the atom [x] of the next frame, as long as the index of that
    atom in the output frame is below [2 ^ 32], is above [2 ^ 63] instead of
    being that index. *)
Theorem start_wraps_at_int_max (out : Frame) (start : Z) (frame : Frame)
  (Hstart : (0 <= start < 2 ^ 31)%Z)
  (Hsize : (2 ^ 31 <= start + Z.of_nat (size frame) < 2 ^ 32)%Z) :
  let start' := snd (Merge.append_frame (out, start) frame) in
  start' = (start + Z.of_nat (size frame) - 2 ^ 32)%Z
  /\ (start' < 0)%Z
  /\ forall x, (0 <= x)%Z -> (start + Z.of_nat (size frame) + x < 2 ^ 32)%Z ->
       Merge.offset start' x = (2 ^ 64 - 2 ^ 32 + (start + Z.of_nat (size frame)) + x)%Z
       /\ (2 ^ 63 < Merge.offset start' x)%Z.
Proof.
  intros start'. subst start'.
  destruct (append_frame_spec out start frame) as (_ & _ & _ & _ & ->).
  assert (E : Merge.to_int (Merge.offset start (Z.of_nat (size frame)))
              = (start + Z.of_nat (size frame) - 2 ^ 32)%Z).
  { unfold Merge.offset, Merge.to_size_t, Merge.to_int.
    rewrite (Z.mod_small start) by lia.
    rewrite (Z.mod_small (start + Z.of_nat (size frame))) by lia.
    replace (start + Z.of_nat (size frame) + 2 ^ 31)%Z
      with ((start + Z.of_nat (size frame) - 2 ^ 31) + 1 * 2 ^ 32)%Z by lia.
    rewrite Z.mod_add by lia. rewrite Z.mod_small by lia. lia. }
  rewrite E. split; [reflexivity|]. split; [lia|].
  intros x Hx Hx'.
  assert (O : Merge.offset (start + Z.of_nat (size frame) - 2 ^ 32) x
              = (2 ^ 64 - 2 ^ 32 + (start + Z.of_nat (size frame)) + x)%Z).
  { unfold Merge.offset, Merge.to_size_t.
    replace (start + Z.of_nat (size frame) - 2 ^ 32)%Z
      with ((start + Z.of_nat (size frame) - 2 ^ 32 + 2 ^ 64) + (-1) * 2 ^ 64)%Z
      by lia.
    rewrite Z.mod_add by lia.
    rewrite (Z.mod_small (start + Z.of_nat (size frame) - 2 ^ 32 + 2 ^ 64)) by lia.
    rewrite Z.mod_small by lia. lia. }
  rewrite O. split; [reflexivity|lia].
Qed.

End MergeSingle.

(** A trajectory of three steps in a cell, with velocities. *)
Lemma run_single_input_copies_frames_witness :
  let fs := [MoreExamples.moving; Examples.in_cell 20; MoreExamples.moving] in
  List.length fs < 4
  /\ Merge.run 4 Examples.merge_plain [open fs]
     = Some (Ok 0%Z, mkOutTrajectory None (map Merge.strip_cell fs)).
Proof.
  intros fs.
  assert (F : List.length fs < 4) by (simpl; lia).
  split; [exact F|].
  apply (run_single_input_copies_frames Examples.merge_plain fs 4 F).
  repeat (apply Forall_cons;
    [split; [split; [intros bond []
                    |intros vs E; try discriminate E; injection E as <-; reflexivity]
            |vm_compute; reflexivity] |]).
  apply Forall_nil.
Defined.

(** One atom added when [2 ^ 31 - 1] atoms are counted. *)
Lemma start_wraps_at_int_max_witness :
  snd (Merge.append_frame (Frame_default, (2 ^ 31 - 1)%Z) Examples.free)
  = (- 2 ^ 31)%Z
  /\ Merge.offset (- 2 ^ 31) 0 = (2 ^ 64 - 2 ^ 31)%Z.
Proof.
  assert (H1 : (0 <= 2 ^ 31 - 1 < 2 ^ 31)%Z) by lia.
  assert (H2 : (2 ^ 31 <= 2 ^ 31 - 1 + Z.of_nat (size Examples.free) < 2 ^ 32)%Z)
    by (simpl; lia).
  destruct (start_wraps_at_int_max Frame_default _ Examples.free H1 H2) as (E & _ & O).
  split; [exact E|].
  destruct (O 0%Z) as [O0 _]; [lia|simpl; lia|].
  rewrite E in O0. exact O0.
Defined.

(** ** The merge command: runs on well formed frames *)

Section MergeWellFormed.

Variable options : Merge.Options.t.

Lemma default_well_formed : Merge.well_formed Frame_default.
Proof.
  split.
  - intros bond [].
  - intros vs E. discriminate E.
Qed.

Lemma held_well_formed (fs : list Frame) (k : nat) :
  Forall Merge.well_formed fs -> Merge.well_formed (Merge.held fs k).
Proof.
  intros H. induction k as [|k IH]; [apply default_well_formed|].
  cbn [Merge.held]. destruct (k <? List.length fs) eqn:E; [|exact IH].
  apply Nat.ltb_lt in E. rewrite Forall_forall in H. apply H. now apply nth_In.
Qed.

Lemma slots_well_formed (inputs : list (list Frame)) (k : nat) :
  Forall (Forall Merge.well_formed) inputs ->
  Forall Merge.well_formed (Merge.slots inputs k).
Proof.
  intros H. unfold Merge.slots. apply Forall_forall. intros frame I.
  apply in_map_iff in I. destruct I as (fs & <- & I).
  apply held_well_formed. rewrite Forall_forall in H. now apply H.
Qed.

(** The output frame of well formed frames is well formed: every index
    given to [add_bond] and every velocity written is inside the output
    frame. *)
Lemma build_output_well_formed (frames : list Frame) :
  Forall Merge.well_formed frames ->
  (Z.of_nat (Merge.total_size frames) < 2 ^ 31)%Z ->
  Merge.well_formed (Merge.build_output frames).
Proof.
  intros W I.
  assert (R : Forall Merge.bonds_in_range frames)
    by (eapply Forall_impl; [|exact W]; intros f [H _]; exact H).
  assert (S : Forall Merge.velocities_sized frames)
    by (eapply Forall_impl; [|exact W]; intros f [_ H]; exact H).
  split.
  - intros bond Ib. rewrite build_output_size.
    rewrite (build_output_bonds frames R I) in Ib.
    unfold Merge.translated_bonds in Ib. apply in_concat in Ib.
    destruct Ib as (l & Hl & Ib). apply in_map_iff in Hl.
    destruct Hl as ([start frame] & <- & Hp). simpl in Ib.
    apply in_map_iff in Ib. destruct Ib as (b0 & <- & Ib).
    pose proof (in_offsets frames 0 start frame Hp) as [_ Ho].
    apply in_combine_r in Hp. rewrite Forall_forall in R.
    destruct (R frame Hp b0 Ib) as [H1 H2].
    unfold Merge.translate. simpl. lia.
  - intros vs E. rewrite (build_output_velocities_concat frames S I) in E.
    destruct (existsb has_velocities frames); [|discriminate].
    injection E as <-. rewrite build_output_size.
    now apply velocities_or_zero_length.
Qed.

Lemma steps_fit_at (inputs : list (list Frame)) (k : nat) :
  Merge.steps_fit inputs = true -> k < Merge.max_nsteps inputs ->
  (Z.of_nat (Merge.total_size (Merge.slots inputs k)) < 2 ^ 31)%Z.
Proof.
  unfold Merge.steps_fit. rewrite forallb_forall. intros H K.
  apply Z.ltb_lt. apply H. apply in_seq. lia.
Qed.

(** The frames written by a run on well formed inputs. *)
Lemma written_well_formed (inputs : list (list Frame)) (j : nat) :
  Forall (Forall Merge.well_formed) inputs ->
  Merge.steps_fit inputs = true ->
  j <= Merge.max_nsteps inputs ->
  Forall Merge.well_formed
    (map (fun i => Merge.build_output (Merge.slots inputs i)) (seq 0 j)).
Proof.
  intros W F J. apply Forall_forall. intros frame I.
  apply in_map_iff in I. destruct I as (i & <- & I). apply in_seq in I.
  apply build_output_well_formed.
  - now apply slots_well_formed.
  - apply steps_fit_at; [exact F|lia].
Qed.

(** X1. On inputs whose frames are well formed and have fewer than [2 ^ 31]
    atoms together at each step, and as long as chemfiles reads the steps
    that exist and writes the frames it is given, the loop of [Merge::run]
    ends within one iteration more than the longest input has steps, by
    returning 0 or by the error on the cells.  The guard [step < nsteps]
    keeps [read] from being called on an input that has no step left, and
    every frame written is well formed: each index given to [add_bond] and
    each velocity written is inside the output frame. *)
Theorem run_ends_by_return_or_mismatch (inputs : list (list Frame)) (fuel : nat)
  (Hfuel : Merge.max_nsteps inputs < fuel)
  (Hframes : Forall (Forall Merge.well_formed) inputs)
  (Hfit : Merge.steps_fit inputs = true) :
  (forall k,
     exists did,
       Merge.read_frames k (map (Merge.at_step k) inputs)
                         (map (fun fs => Merge.held fs k) inputs)
       = Ok (map (Merge.at_step (S k)) inputs, Merge.slots inputs k, did)
       /\ Forall (fun t => cursor t <= nsteps t) (map (Merge.at_step (S k)) inputs))
  /\ exists outfile,
       (Merge.run fuel options (map open inputs) = Some (Ok 0%Z, outfile)
        \/ Merge.run fuel options (map open inputs) = Some (Err Merge.mismatch, outfile))
       /\ List.length (written outfile) <= Merge.max_nsteps inputs
       /\ Merge.run fuel options (map open inputs)
          = Merge.run (S (Merge.max_nsteps inputs)) options (map open inputs)
       /\ Forall Merge.well_formed (written outfile).
Proof.
  split.
  - intros k. eexists. split; [apply read_frames_step|].
    apply Forall_forall. intros t I. apply in_map_iff in I.
    destruct I as (fs & <- & _). unfold Merge.at_step, nsteps.
    cbn [cursor steps]. apply Nat.le_min_r.
  - rewrite (run_outcome options inputs fuel Hfuel).
    rewrite (run_outcome options inputs (S (Merge.max_nsteps inputs))) by lia.
    destruct (outcome_written options inputs (Merge.max_nsteps inputs) 0
                (Merge.initial_outfile options))
      as (j & Hj & _ & Hw & _ & Hr).
    destruct (Merge.outcome options inputs (Merge.initial_outfile options) 0
                (Merge.max_nsteps inputs)) as [r outfile].
    cbn [fst snd] in *. rewrite initial_outfile_written in Hw. simpl in Hw.
    exists outfile. split; [|split; [|split; [reflexivity|]]].
    + destruct Hr as [[-> _]|(-> & _)]; [now left | now right].
    + rewrite Hw, length_map, length_seq. exact Hj.
    + rewrite Hw. now apply written_well_formed.
Qed.

(** X3. With [--cell], or when no frame of any input has a cell, the
    comparison of the cells never throws: on well formed inputs with fewer
    than [2 ^ 31] atoms at each step, and as long as chemfiles reads and
    writes without error, the run returns 0 and writes one well formed frame
    for each step of the longest input, whatever the lengths of the inputs
    are. *)
Theorem run_succeeds_with_forced_or_no_cell (inputs : list (list Frame)) (fuel : nat)
  (Hfuel : Merge.max_nsteps inputs < fuel)
  (Hframes : Forall (Forall Merge.well_formed) inputs)
  (Hfit : Merge.steps_fit inputs = true)
  (Hcells : Merge.Options.custom_cell options = true
            \/ Forall (Forall (fun frame => Merge.is_infinite frame = true)) inputs) :
  (forall k, Merge.check_cells options (Merge.slots inputs k) = Ok tt)
  /\ Merge.run fuel options (map open inputs)
     = Some (Ok 0%Z,
             mkOutTrajectory
               (handle_cell (Merge.initial_outfile options))
               (map (fun k => Merge.build_output (Merge.slots inputs k))
                    (seq 0 (Merge.max_nsteps inputs))))
  /\ Forall Merge.well_formed
       (map (fun k => Merge.build_output (Merge.slots inputs k))
            (seq 0 (Merge.max_nsteps inputs))).
Proof.
  assert (C : forall k, Merge.check_cells options (Merge.slots inputs k) = Ok tt).
  { intros k. unfold Merge.check_cells. destruct Hcells as [H|H].
    - now rewrite H.
    - destruct (negb (Merge.Options.custom_cell options)); [|reflexivity].
      apply compare_cells_infinite. unfold Merge.slots.
      apply Forall_forall. intros frame I. apply in_map_iff in I.
      destruct I as (fs & <- & I). apply held_infinite.
      rewrite Forall_forall in H. now apply H. }
  split; [exact C|]. split.
  - now apply run_when_cells_agree.
  - now apply written_well_formed.
Qed.

End MergeWellFormed.

(** Inputs of 3 and 5 steps of one atom: 6 iterations are enough, and more
    change nothing. *)
Lemma run_ends_by_return_or_mismatch_witness :
  Merge.max_nsteps [Examples.trajectory_A; Examples.trajectory_B] < 9
  /\ Merge.steps_fit [Examples.trajectory_A; Examples.trajectory_B] = true
  /\ Merge.run 9 Examples.merge_plain
               (map open [Examples.trajectory_A; Examples.trajectory_B])
     = Merge.run 6 Examples.merge_plain
                 (map open [Examples.trajectory_A; Examples.trajectory_B]).
Proof.
  assert (F : Merge.max_nsteps [Examples.trajectory_A; Examples.trajectory_B] < 9)
    by (vm_compute; lia).
  assert (W : Forall (Forall Merge.well_formed)
                [Examples.trajectory_A; Examples.trajectory_B]).
  { repeat (apply Forall_cons || apply Forall_nil);
      (split; [intros bond []|intros vs E; discriminate E]). }
  assert (S : Merge.steps_fit [Examples.trajectory_A; Examples.trajectory_B] = true)
    by reflexivity.
  split; [exact F|]. split; [exact S|].
  destruct (run_ends_by_return_or_mismatch Examples.merge_plain _ 9 F W S)
    as (_ & outfile & _ & _ & E & _).
  exact E.
Defined.

(** Cells of sides 10 and 20 merged with [--cell=30]. *)
Lemma run_succeeds_with_forced_or_no_cell_witness :
  let inputs := [[Examples.in_cell 10]; [Examples.in_cell 20]] in
  Merge.steps_fit inputs = true
  /\ exists outfile,
       Merge.run 2 Examples.merge_forced (map open inputs) = Some (Ok 0%Z, outfile)
       /\ List.length (written outfile) = 1.
Proof.
  intros inputs.
  assert (F : Merge.max_nsteps inputs < 2) by (vm_compute; lia).
  assert (W : Forall (Forall Merge.well_formed) inputs).
  { repeat (apply Forall_cons || apply Forall_nil);
      (split; [intros bond []|intros vs E; discriminate E]). }
  assert (S : Merge.steps_fit inputs = true) by reflexivity.
  split; [exact S|].
  eexists. split.
  - exact (proj1 (proj2 (run_succeeds_with_forced_or_no_cell Examples.merge_forced
                           inputs 2 F W S (or_introl eq_refl)))).
  - reflexivity.
Defined.


Section MergeOptions.

Variable split : string -> list string.
Variable parse_cell : string -> result UnitCell.t.
Variable declared : Merge.ParsedOptions.t.


End MergeOptions.


(** ** The rdf command: frames without a pair, the written table *)

Section RdfRuns.

Variable wrap : UnitCell.t -> Vector3D -> Vector3D.
Variable norm : Vector3D -> Q.
Variable volume : UnitCell.t -> Q.
Variable parse_selection : string -> Selection.

Lemma incr_length (i : nat) (l : list double) :
  List.length (Histogram.incr i l) = List.length l.
Proof.
  revert i. induction l as [|v l IH]; intros i; destruct i; simpl;
    try reflexivity.
  now rewrite IH.
Qed.

Lemma mapi_from_length {A B : Type} (f : nat -> A -> B) (l : list A) (s : nat) :
  List.length (Histogram.mapi_from s f l) = List.length l.
Proof.
  revert s. induction l as [|x l IH]; intros s; simpl; [reflexivity|now rewrite IH].
Qed.

Lemma insert_at_shape (h : Histogram.t) (x : Q) :
  same_shape_as h (Histogram.insert_at h x).
Proof.
  unfold same_shape_as, Histogram.insert_at.
  destruct (Qle_bool (Histogram.lower_bound h) x && Qltb x (Histogram.upper_bound h));
    simpl; repeat split. apply incr_length.
Qed.

Lemma same_shape_trans (h1 h2 h3 : Histogram.t) :
  same_shape_as h1 h2 -> same_shape_as h2 h3 -> same_shape_as h1 h3.
Proof.
  unfold same_shape_as. intros (A & B & C & D) (A' & B' & C' & D').
  repeat split; congruence.
Qed.

Lemma same_shape_refl (h : Histogram.t) : same_shape_as h h.
Proof. repeat split. Qed.

Lemma accumulate_pairs_shape (this : Rdf.t) (frame : Frame) (h : Histogram.t) :
  same_shape_as h (fst (Rdf.accumulate_pairs wrap norm this frame h)).
Proof.
  rewrite accumulate_pairs_considered.
  generalize (Rdf.considered_pairs this frame). intros pairs.
  assert (G : forall acc, same_shape_as h (fst acc) ->
            same_shape_as h
              (fst (fold_left
                      (fun acc p =>
                         Rdf.record_pair wrap norm (Rdf.rmax (Rdf.options_ this))
                                         frame (fst p) (snd p) acc) pairs acc))).
  { induction pairs as [|p pairs IH]; intros acc H; simpl; [exact H|].
    apply IH. unfold Rdf.record_pair.
    destruct (Qltb _ _); [|exact H]. simpl.
    eapply same_shape_trans; [exact H|apply insert_at_shape]. }
  apply G. apply same_shape_refl.
Qed.

(** [accumulate] keeps the bounds and the number of bins of the histogram. *)
Lemma accumulate_shape (this : Rdf.t) (frame : Frame) (h : Histogram.t) :
  same_shape_as h (Rdf.accumulate wrap norm volume this frame h).
Proof.
  unfold Rdf.accumulate.
  pose proof (accumulate_pairs_shape this frame h) as S.
  destruct (Rdf.accumulate_pairs wrap norm this frame h) as [h' n]. simpl in S.
  eapply same_shape_trans; [exact S|].
  unfold same_shape_as, Rdf.normalize_frame, Rdf.normalize_with, Histogram.normalize.
  simpl. repeat split. apply mapi_from_length.
Qed.

Lemma accumulate_all_shape (this : Rdf.t) (frames : list Frame) (h : Histogram.t) :
  same_shape_as h
    (fold_left (fun h frame => Rdf.accumulate wrap norm volume this frame h) frames h).
Proof.
  assert (G : forall h1, same_shape_as h h1 ->
            same_shape_as h
              (fold_left (fun h frame =>
                 Rdf.accumulate wrap norm volume this frame h) frames h1)).
  { induction frames as [|frame fs IH]; intros h1 H; simpl; [exact H|].
    apply IH. eapply same_shape_trans; [exact H|apply accumulate_shape]. }
  apply G. apply same_shape_refl.
Qed.

Lemma Forall_mapi_from {A B : Type} (P : B -> Prop) (f : nat -> A -> B)
  (l : list A) (s : nat) :
  (forall i x, P (f i x)) -> Forall P (Histogram.mapi_from s f l).
Proof.
  intros H. revert s. induction l as [|x l IH]; intros s; simpl; constructor; auto.
Qed.

Lemma mul_zero_pairs (x : double) : zero_or_nan (Double.mul x (Double.of_nat 0)).
Proof.
  destruct x as [a| | |]; simpl.
  - right. exists (a * inject_Z 0)%Q. split; [reflexivity|]. apply Qmult_0_r.
  - now left.
  - now left.
  - now left.
Qed.

Lemma mul_zero_or_nan (d : double) (q : Q) :
  zero_or_nan d -> zero_or_nan (Double.mul d (Fin q)).
Proof.
  intros [->|(z & -> & Z0)]; simpl; [now left|].
  right. exists (z * q)%Q. split; [reflexivity|]. rewrite Z0. apply Qmult_0_l.
Qed.

Lemma div_zero_or_nan (val d : double) :
  zero_or_nan d -> forall q, Double.div val d <> Fin q.
Proof.
  intros [->|(z & -> & Z0)] q.
  - destruct val; discriminate.
  - apply Qeq_bool_iff in Z0.
    destruct val as [a| | |]; simpl; rewrite ?Z0.
    + destruct (Double.sgn a); discriminate.
    + destruct (Qltb z 0); discriminate.
    + destruct (Qltb z 0); discriminate.
    + discriminate.
Qed.

(** X10. When no pair of a frame is closer than [rmax] (for instance when the
    selection matches a single atom), [npairs] is 0 and the normalisation of
    [accumulate] divides by 0: no bin of the histogram holds a finite value
    afterwards, whatever the histogram held before. *)
Theorem accumulate_without_pair_loses_histogram (this : Rdf.t) (frame : Frame)
  (h : Histogram.t)
  (Hnone : snd (Rdf.accumulate_pairs wrap norm this frame h) = 0) :
  Forall (fun d => forall q, d <> Fin q)
         (Histogram.bins (Rdf.accumulate wrap norm volume this frame h))
  /\ List.length (Histogram.bins (Rdf.accumulate wrap norm volume this frame h))
     = List.length (Histogram.bins h).
Proof.
  split; [|apply accumulate_shape].
  unfold Rdf.accumulate.
  destruct (Rdf.accumulate_pairs wrap norm this frame h) as [h' n].
  simpl in Hnone. subst n.
  unfold Rdf.normalize_frame, Rdf.normalize_with, Histogram.normalize.
  cbn [Histogram.bins]. apply Forall_mapi_from. intros i val.
  apply div_zero_or_nan. do 3 apply mul_zero_or_nan. apply mul_zero_pairs.
Qed.

(** X11. After a [setup] that did not throw and any number of calls of
    [accumulate], [finish] opens the file given by [--output], or the
    trajectory name followed by [.rdf], and writes to it the two lines of
    header and one row for each of the [--points] bins, the row [i] starting
    with [i * dr] for [dr = (rmax - 0) / points]; the bounds and the number of
    bins are those of [setup] however many frames were accumulated. *)
Theorem finish_writes_one_row_per_point (args : Rdf.Args) (avg : Rdf.AverageOptions)
  (st : Rdf.State) (frames : list Frame)
  (Hsize : sel_size (parse_selection (Rdf.arg_selection args)) <= 2) :
  let st1 := snd (Rdf.setup parse_selection args avg st) in
  let h :=
    fold_left (fun h frame => Rdf.accumulate wrap norm volume (Rdf.self st1) frame h)
              frames (Rdf.histogram st1) in
  let out :=
    match Rdf.arg_output args with
    | Some o => o
    | None => (Rdf.trajectory avg ++ ".rdf")%string
    end in
  let dr := ((Rdf.rmax (Rdf.options_ (Rdf.self st1)) - 0)
             / inject_Z (Z.of_nat (Rdf.arg_points args)))%Q in
  fst (Rdf.setup parse_selection args avg st) = Ok tt
  /\ Rdf.finish true avg (Rdf.mkState (Rdf.self st1) h (Rdf.io st1))
     = (Ok tt,
        Rdf.mkState (Rdf.self st1) h
          (Rdf.io st
           ++ [Rdf.OpenWrite out;
               Rdf.WriteText out
                 ("# Radial distribution function in trajectory " ++ Rdf.trajectory avg)%string;
               Rdf.WriteText out ("# Selection: " ++ Rdf.arg_selection args)%string]
           ++ map (fun i => Rdf.WriteData out (inject_Z (Z.of_nat i) * dr)%Q
                                          (Histogram.get h i))
                  (seq 0 (Rdf.arg_points args)))).
Proof.
  intros st1 h out dr.
  assert (S : same_shape_as (Rdf.histogram st1) h) by apply accumulate_all_shape.
  split; [now apply setup_ok_iff|].
  destruct S as (Sc & Sl & Su & Sn).
  unfold Rdf.finish. cbn [Rdf.self Rdf.histogram Rdf.io Rdf.options_].
  unfold Histogram.size, Histogram.bin_size. rewrite Sc, Sl, Su, Sn.
  subst st1 out dr. unfold Rdf.setup.
  destruct (2 <? sel_size (parse_selection (Rdf.arg_selection args)));
    cbn [snd Rdf.self Rdf.histogram Rdf.io Rdf.options_ Rdf.outfile Rdf.selection
         Rdf.rmax Histogram.make Histogram.bin_count Histogram.lower_bound
         Histogram.upper_bound Histogram.bins];
    rewrite repeat_length; reflexivity.
Qed.

(** X12. For a selection of size 1 and a distance that is the same from [i]
    to [j] as from [j] to [i], [accumulate] records the pair [(i, j)] if and
    only if it records [(j, i)]: every pair of atoms closer than [rmax] is
    inserted twice, once in each order. *)
Theorem accumulate_records_both_orders (this : Rdf.t) (frame : Frame)
  (Hsize : sel_size (Rdf.selection_ this) = 1)
  (Hsym : forall i j,
     (Rdf.distance wrap norm frame i j == Rdf.distance wrap norm frame j i)%Q) :
  let kept :=
    filter (Rdf.below wrap norm (Rdf.rmax (Rdf.options_ this)) frame)
           (Rdf.considered_pairs this frame) in
  (forall i j, In (i, j) kept <-> In (j, i) kept)
  /\ forall h, snd (Rdf.accumulate_pairs wrap norm this frame h) = List.length kept.
Proof.
  intros kept. split.
  - assert (G : forall i j, In (i, j) kept -> In (j, i) kept).
    { intros i j. subst kept. rewrite !filter_In.
      unfold Rdf.considered_pairs. rewrite Hsize. cbn [Nat.eqb].
      rewrite !in_distinct_pairs. unfold Rdf.below. cbn [fst snd].
      rewrite !Qltb_lt. intros [(Hi & Hj & N) L].
      split; [repeat split; auto|]. now rewrite <- (Hsym i j). }
    intros i j. split; apply G.
  - intros h. rewrite accumulate_pairs_considered, record_pairs. reflexivity.
Qed.

End RdfRuns.

(** A frame with a single atom: the five bins, which held 0, hold NaN. *)
Lemma accumulate_without_pair_loses_histogram_witness :
  snd (Rdf.accumulate_pairs Chemfiles.wrap Chemfiles.norm Examples.rdf_all
         MoreExamples.one_atom (Histogram.make 5 0 5)) = 0
  /\ Histogram.bins
       (Rdf.accumulate Chemfiles.wrap Chemfiles.norm Chemfiles.volume Examples.rdf_all
          MoreExamples.one_atom (Histogram.make 5 0 5))
     = [NaN; NaN; NaN; NaN; NaN]
  /\ Forall (fun d => forall q, d <> Fin q)
       (Histogram.bins
          (Rdf.accumulate Chemfiles.wrap Chemfiles.norm Chemfiles.volume Examples.rdf_all
             MoreExamples.one_atom (Histogram.make 5 0 5))).
Proof.
  assert (N : snd (Rdf.accumulate_pairs Chemfiles.wrap Chemfiles.norm Examples.rdf_all
                     MoreExamples.one_atom (Histogram.make 5 0 5)) = 0)
    by reflexivity.
  split; [exact N|]. split; [vm_compute; reflexivity|].
  exact (proj1 (accumulate_without_pair_loses_histogram Chemfiles.wrap Chemfiles.norm
                  Chemfiles.volume Examples.rdf_all MoreExamples.one_atom
                  (Histogram.make 5 0 5) N)).
Defined.

(** [cfiles rdf --max=5 --points=5 water.xyz] on one frame: the file
    [water.xyz.rdf] is opened and gets 2 lines of header and 5 rows. *)
Lemma finish_writes_one_row_per_point_witness :
  sel_size (Chemfiles.parse_selection (Rdf.arg_selection (Examples.rdf_args "all"))) <= 2
  /\ exists st',
       Rdf.finish true Examples.no_cell
         (Rdf.mkState
            (Rdf.self (snd (Rdf.setup Chemfiles.parse_selection (Examples.rdf_args "all")
                              Examples.no_cell Examples.rdf_initial)))
            (fold_left
               (fun h frame =>
                  Rdf.accumulate Chemfiles.wrap Chemfiles.norm Chemfiles.volume
                    (Rdf.self (snd (Rdf.setup Chemfiles.parse_selection
                                      (Examples.rdf_args "all") Examples.no_cell
                                      Examples.rdf_initial))) frame h)
               [Examples.two_atoms]
               (Rdf.histogram (snd (Rdf.setup Chemfiles.parse_selection
                                      (Examples.rdf_args "all") Examples.no_cell
                                      Examples.rdf_initial))))
            (Rdf.io (snd (Rdf.setup Chemfiles.parse_selection (Examples.rdf_args "all")
                            Examples.no_cell Examples.rdf_initial))))
       = (Ok tt, st')
       /\ List.length (Rdf.io st') = 8
       /\ hd_error (Rdf.io st') = Some (Rdf.OpenWrite "water.xyz.rdf").
Proof.
  assert (S : sel_size (Chemfiles.parse_selection
                          (Rdf.arg_selection (Examples.rdf_args "all"))) <= 2)
    by (vm_compute; lia).
  split; [exact S|].
  eexists. split.
  - exact (proj2 (finish_writes_one_row_per_point Chemfiles.wrap Chemfiles.norm
                    Chemfiles.volume Chemfiles.parse_selection (Examples.rdf_args "all")
                    Examples.no_cell Examples.rdf_initial [Examples.two_atoms] S)).
  - split; reflexivity.
Defined.

(** The two atoms of [two_atoms]: the pairs (0, 1) and (1, 0) are both
    recorded. *)
Lemma accumulate_records_both_orders_witness :
  sel_size (Rdf.selection_ Examples.rdf_all) = 1
  /\ (In (0, 1) (filter (Rdf.below Chemfiles.wrap Chemfiles.norm 5 Examples.two_atoms)
                        (Rdf.considered_pairs Examples.rdf_all Examples.two_atoms))
      <-> In (1, 0) (filter (Rdf.below Chemfiles.wrap Chemfiles.norm 5 Examples.two_atoms)
                            (Rdf.considered_pairs Examples.rdf_all Examples.two_atoms))).
Proof.
  split; [reflexivity|].
  assert (Sym : forall i j,
            (Rdf.distance Chemfiles.wrap Chemfiles.norm Examples.two_atoms i j
             == Rdf.distance Chemfiles.wrap Chemfiles.norm Examples.two_atoms j i)%Q).
  { intros i j.
    destruct i as [|[|[|i]]], j as [|[|[|j]]]; vm_compute; reflexivity. }
  exact (proj1 (accumulate_records_both_orders Chemfiles.wrap Chemfiles.norm
                  Examples.rdf_all Examples.two_atoms eq_refl Sym) 0 1).
Defined.

(** ** [HBonds::run]: the keys read by [parse_options] *)

Section HBondsOptions.

Variable cell_wrap : UnitCell.t -> Vector3D -> Vector3D.
Variable guess_topology : Frame -> Frame.
Variable set_topology : Trajectory -> string -> string -> result Trajectory.
Variable parse_cell : string -> result UnitCell.t.
Variable parse_steps : string -> result unit.
Variable declared : HBonds.ParsedOptions.t.

Lemma lookup_in_keys (key : string) (m : Docopt.args) (v : Docopt.value) :
  Docopt.lookup key m = Some v -> In key (map fst m).
Proof.
  induction m as [|[k w] m IH]; simpl; [discriminate|].
  destruct (String.eqb k key) eqn:E.
  - apply String.eqb_eq in E. now left.
  - intros H. right. now apply IH.
Qed.

Lemma lookup_undeclared (key : string) (m : Docopt.args) :
  forallb (fun kv => existsb (String.eqb (fst kv)) HBonds.usage_keys) m = true ->
  ~ In key HBonds.usage_keys ->
  Docopt.lookup key m = None.
Proof.
  intros K N. destruct (Docopt.lookup key m) as [v|] eqn:L; [|reflexivity].
  exfalso. apply N. apply lookup_in_keys in L. apply in_map_iff in L.
  destruct L as ([k w] & E & I). simpl in E. subst k.
  rewrite forallb_forall in K. apply K in I. cbn [fst] in I.
  apply existsb_exists in I. destruct I as (u & Iu & Eu).
  apply String.eqb_eq in Eu. now subst u.
Qed.

(** X13. [parse_options] reads the keys [<input>], [<output>] and [--wrap],
    which the usage text of the file does not declare.  For every result of
    docopt whose keys are those of the usage text, it throws at line 71 on the
    empty value of [args["<input>"]], and [HBonds::run] ends there without
    opening a file.  Whatever the other entries are, a result without the key
    [--wrap] makes it throw. *)
Theorem parse_options_reads_undeclared_keys (args : Docopt.args)
  (Hkeys : forallb (fun kv => existsb (String.eqb (fst kv)) HBonds.usage_keys) args
           = true) :
  HBonds.parse_options parse_cell parse_steps declared args
  = Docopt.Thrown (Docopt.IllegalCast Docopt.KString Docopt.KEmpty)
  /\ (forall files,
        HBonds.run cell_wrap guess_topology set_topology parse_cell parse_steps
                   declared files args
        = (Docopt.Thrown (Docopt.IllegalCast Docopt.KString Docopt.KEmpty), []))
  /\ (forall args', Docopt.lookup "--wrap" args' = None ->
        exists e, HBonds.parse_options parse_cell parse_steps declared args'
                  = Docopt.Thrown e).
Proof.
  assert (P : HBonds.parse_options parse_cell parse_steps declared args
              = Docopt.Thrown (Docopt.IllegalCast Docopt.KString Docopt.KEmpty)).
  { unfold HBonds.parse_options, Docopt.index.
    rewrite (lookup_undeclared "<input>" args Hkeys); [reflexivity|].
    unfold HBonds.usage_keys. simpl. intros H.
    repeat (destruct H as [H|H]; [discriminate H|]). exact H. }
  split; [exact P|]. split.
  - intros files. unfold HBonds.run. now rewrite P.
  - intros args' W. unfold HBonds.parse_options.
    destruct (Docopt.index args' "<input>") as [v1 m1] eqn:I1.
    destruct (Docopt.asString v1) as [infile|e] eqn:A1; [|now exists e].
    assert (M1 : m1 = args').
    { unfold Docopt.index in I1.
      destruct (Docopt.lookup "<input>" args'); injection I1 as <- <-;
        [reflexivity|discriminate A1]. }
    subst m1. cbn [Docopt.and_then].
    destruct (Docopt.index args' "<output>") as [v2 m2] eqn:I2.
    destruct (Docopt.asString v2) as [outfile|e] eqn:A2; [|now exists e].
    assert (M2 : m2 = args').
    { unfold Docopt.index in I2.
      destruct (Docopt.lookup "<output>" args'); injection I2 as <- <-;
        [reflexivity|discriminate A2]. }
    subst m2. cbn [Docopt.and_then].
    destruct (Docopt.at_ args' "--guess-bonds") as [v3|e]; [|now exists e].
    cbn [Docopt.and_then].
    destruct (Docopt.asBool v3) as [g|e]; [|now exists e].
    cbn [Docopt.and_then]. unfold Docopt.at_ at 1. rewrite W.
    now exists (Docopt.OutOfRange "--wrap").
Qed.

End HBondsOptions.

(** The result of docopt for [cfiles hbonds water.xyz]. *)
Lemma parse_options_reads_undeclared_keys_witness :
  forallb (fun kv => existsb (String.eqb (fst kv)) HBonds.usage_keys)
          MoreExamples.hbonds_args = true
  /\ HBonds.parse_options MoreExamples.parse_cell MoreExamples.parse_steps
        MoreExamples.hbonds_declared MoreExamples.hbonds_args
     = Docopt.Thrown (Docopt.IllegalCast Docopt.KString Docopt.KEmpty).
Proof.
  split; [reflexivity|].
  apply (parse_options_reads_undeclared_keys Chemfiles.wrap Chemfiles.guess_topology
           MoreExamples.set_topology MoreExamples.parse_cell MoreExamples.parse_steps
           MoreExamples.hbonds_declared MoreExamples.hbonds_args).
  reflexivity.
Defined.

(** ** The merge command: the atoms of the written frames *)

Section MergeWritten.

Variable options : Merge.Options.t.

(** X14. In every run, failed or not, the atoms of the frame written for
    step [k] are the atoms of the inputs in the order of the command line,
    each input giving the atoms of its step [k], or of its last step when it
    has [k] steps or fewer, or none when it has no step. *)
Theorem written_atoms_follow_inputs (inputs : list (list Frame)) (fuel : nat)
  (Hfuel : Merge.max_nsteps inputs < fuel) :
  exists r outfile,
    Merge.run fuel options (map open inputs) = Some (r, outfile)
    /\ forall k, k < List.length (written outfile) ->
         atoms (nth k (written outfile) Frame_default)
         = concat (map (fun fs =>
                     atoms (nth (Nat.min k (List.length fs - 1)) fs Frame_default))
                     inputs).
Proof.
  rewrite (run_outcome options inputs fuel Hfuel).
  destruct (outcome_written options inputs (Merge.max_nsteps inputs) 0
              (Merge.initial_outfile options))
    as (j & _ & _ & Hw & _ & _).
  destruct (Merge.outcome options inputs (Merge.initial_outfile options) 0
              (Merge.max_nsteps inputs)) as [r outfile].
  cbn [fst snd] in *. exists r, outfile. split; [reflexivity|].
  rewrite initial_outfile_written in Hw. simpl in Hw. rewrite Hw.
  rewrite length_map, length_seq. intros k Hk.
  rewrite (nth_indep _ Frame_default (Merge.build_output (Merge.slots inputs 0)))
    by (rewrite length_map, length_seq; exact Hk).
  rewrite (map_nth (fun i => Merge.build_output (Merge.slots inputs i)) (seq 0 j) 0 k).
  rewrite seq_nth by exact Hk. simpl Nat.add.
  rewrite (proj1 (build_output_spec (Merge.slots inputs k))).
  unfold Merge.slots. rewrite map_map. f_equal.
  apply map_ext. intros fs. now rewrite held_nth.
Qed.

End MergeWritten.

(** [A] has 3 steps and [B] has 5: the output has 5 frames, and the frame of
    step 4 has the atom of the step 2 of [A] and the atom of the step 4 of
    [B]. *)
Lemma written_atoms_follow_inputs_witness :
  Merge.max_nsteps [Examples.trajectory_A; Examples.trajectory_B] < 6
  /\ exists r outfile,
       Merge.run 6 Examples.merge_plain
                 (map open [Examples.trajectory_A; Examples.trajectory_B])
       = Some (r, outfile)
       /\ 4 < List.length (written outfile)
       /\ atoms (nth 4 (written outfile) Frame_default)
          = [Examples.atom "A" 2 0 0; Examples.atom "B" 4 0 0].
Proof.
  assert (F : Merge.max_nsteps [Examples.trajectory_A; Examples.trajectory_B] < 6)
    by (vm_compute; lia).
  split; [exact F|].
  destruct (written_atoms_follow_inputs Examples.merge_plain _ 6 F) as (r & outfile & R & A).
  exists r, outfile. split; [exact R|].
  assert (L : 4 < List.length (written outfile)).
  { vm_compute in R. injection R as _ <-. simpl. lia. }
  split; [exact L|]. rewrite (A 4 L). reflexivity.
Defined.
